(** * MessageClassGenerator: shape of the generated constructor class

    A shallow embedding of
    [packages/plugin/src/code-gen/message-class-generator.ts].

    The generator walks the field metadata of one message and builds a
    TypeScript class declaration whose constructor parameters mirror the
    fields, every oneof group collapsed into one parameter typed by a
    discriminated union.  The TypeScript syntax nodes it builds are modelled
    as inductive types, its collaborators (imports, comments, interpreter,
    source file) as operations on an abstract world state, and its
    exceptions as the left summand of the result.

    Modelled are [generateMessageClass] and the private methods it calls:
    [createTypeNode], [createScalarTypeNode], [createMessageTypeNode],
    [createEnumTypeNode], [oneofInfo] and [createOneofADTTypeNode]. *)

From Stdlib Require Import List String ZArith Bool Lia.
Import ListNotations.
Local Open Scope string_scope.
Local Open Scope list_scope.
Set Warnings "-register-all".

(** ** Runtime enumerations ([rt.ScalarType], [rt.LongType]) *)

(** Modelled from the spec: the declaration of [rt.ScalarType] is not part of
    the source file; its members are the fifteen case labels that
    [createScalarTypeNode] names, which are the scalar kinds of the spec's
    data model (bool, text, bytes, the two floats, five 32-bit integer kinds
    and five 64-bit integer kinds). *)
Module ScalarType.

Inductive t : Type :=
| DOUBLE | FLOAT | INT64 | UINT64 | INT32 | FIXED64 | FIXED32 | BOOL
| STRING | BYTES | UINT32 | SFIXED32 | SFIXED64 | SINT32 | SINT64.

Definition eq_dec (a b : t) : {a = b} + {a <> b}.
Proof. decide equality. Defined.

(** [a === b] on enumeration members. *)
Definition eqb (a b : t) : bool := if eq_dec a b then true else false.

(** The width-64 integer kinds. *)
Definition is_long (a : t) : bool :=
  match a with
  | INT64 | UINT64 | FIXED64 | SFIXED64 | SINT64 => true
  | _ => false
  end.

End ScalarType.

(** Modelled from the spec: the declaration of [rt.LongType] is not part of
    the source file; the three members are the LongRepresentation policies
    (arbitrary-precision-integer, textual-decimal-string, native-number). *)
Module LongType.

Inductive t : Type := BIGINT | STRING | NUMBER.

Definition eq_dec (a b : t) : {a = b} + {a <> b}.
Proof. decide equality. Defined.

Definition eqb (a b : t) : bool := if eq_dec a b then true else false.

End LongType.

(** ** TypeScript syntax nodes *)

Module ts.

(** The members of [ts.SyntaxKind] the generator uses. *)
Module SyntaxKind.
Inductive t : Type :=
| PublicKeyword | ReadonlyKeyword | ExportKeyword
| StringKeyword | NumberKeyword | BooleanKeyword | BigIntKeyword
| UndefinedKeyword.
End SyntaxKind.

(** Type nodes, the members of a type literal and parameter declarations,
    each constructor named after the factory function that builds the node
    ([createLiteralTypeNode s] is the literal type of the string literal
    [s]).  A child of type [option TypeNode] is a position that receives a
    JavaScript value that may be [undefined].  [questionToken] is [true]
    when the [QuestionToken] is passed and [false] when [undefined] is.
    Arguments that the generator always passes as [undefined] (decorators,
    the rest token, initializers, type arguments) are left out. *)
Inductive TypeNode : Type :=
| createKeywordTypeNode (kind : SyntaxKind.t)
| createTypeReferenceNode (typeName : string)
| createLiteralTypeNode (stringLiteral : string)
| createTypeLiteralNode (members : list TypeElement)
| createUnionTypeNode (types : list TypeNode)
| createArrayTypeNode (elementType : option TypeNode)
with TypeElement : Type :=
| createPropertySignature (name : string) (questionToken : bool)
    (type : option TypeNode)
| createIndexSignature (parameters : list ParameterDeclaration)
    (type : option TypeNode)
with ParameterDeclaration : Type :=
| createParameter (modifiers : option (list SyntaxKind.t)) (name : string)
    (questionToken : bool) (type : option TypeNode).

Inductive ClassElement : Type :=
| createConstructor (parameters : list ParameterDeclaration).

Record ClassDeclaration : Type := createClassDeclaration
  { class_modifiers : list SyntaxKind.t;
    class_name : string;
    class_members : list ClassElement }.

End ts.

(** ** JavaScript helpers *)

(** [a ?? b] *)
Definition nullish {A : Type} (a : option A) (b : A) : A :=
  match a with Some x => x | None => b end.

(** Truthiness of a [string | undefined] value: the empty string and
    [undefined] are falsy. *)
Definition truthy (s : option string) : option string :=
  match s with
  | Some x => if String.eqb x "" then None else Some x
  | None => None
  end.

(** [array.includes(x)] on an array of strings. *)
Definition includes (l : list string) (x : string) : bool :=
  existsb (String.eqb x) l.

(** ** createScalarTypeNode *)

(** A [case] group of a [switch] over [rt.ScalarType]: the scrutinee is
    compared with each label in turn. *)
Definition scalar_case (x : ScalarType.t) (labels : list ScalarType.t) : bool :=
  existsb (ScalarType.eqb x) labels.

(** The two switches have no [default] branch, and the function has no
    statement after them: a scrutinee that matches no label makes the
    function return [undefined], here [None]. *)
Definition createScalarTypeNode (scalarType : ScalarType.t)
    (longType : option LongType.t) : option ts.TypeNode :=
  if scalar_case scalarType [ScalarType.BOOL] then
    Some (ts.createKeywordTypeNode ts.SyntaxKind.BooleanKeyword)
  else if scalar_case scalarType [ScalarType.STRING] then
    Some (ts.createKeywordTypeNode ts.SyntaxKind.StringKeyword)
  else if scalar_case scalarType [ScalarType.BYTES] then
    Some (ts.createTypeReferenceNode "Uint8Array")
  else if scalar_case scalarType
            [ScalarType.DOUBLE; ScalarType.FLOAT; ScalarType.INT32;
             ScalarType.FIXED32; ScalarType.UINT32; ScalarType.SFIXED32;
             ScalarType.SINT32] then
    Some (ts.createKeywordTypeNode ts.SyntaxKind.NumberKeyword)
  else if scalar_case scalarType
            [ScalarType.SFIXED64; ScalarType.INT64; ScalarType.UINT64;
             ScalarType.FIXED64; ScalarType.SINT64] then
    let l := nullish longType LongType.STRING in
    if LongType.eqb l LongType.STRING then
      Some (ts.createKeywordTypeNode ts.SyntaxKind.StringKeyword)
    else if LongType.eqb l LongType.NUMBER then
      Some (ts.createKeywordTypeNode ts.SyntaxKind.NumberKeyword)
    else if LongType.eqb l LongType.BIGINT then
      Some (ts.createKeywordTypeNode ts.SyntaxKind.BigIntKeyword)
    else None
  else None.

(** The three-way switch on the LongRepresentation policy, as the spec
    words it: the string type for the textual form, the number type for
    the native number, the bigint type for the arbitrary-precision
    integer.  The properties compare [createScalarTypeNode] with it. *)
Definition longTypeNode (l : LongType.t) : ts.TypeNode :=
  match l with
  | LongType.STRING => ts.createKeywordTypeNode ts.SyntaxKind.StringKeyword
  | LongType.NUMBER => ts.createKeywordTypeNode ts.SyntaxKind.NumberKeyword
  | LongType.BIGINT => ts.createKeywordTypeNode ts.SyntaxKind.BigIntKeyword
  end.

(** ** Schema descriptors ([DescMessage], [DescField], [DescOneof])

    The descriptor objects of [@bufbuild/protobuf], with the properties the
    generator reads.  The object graph is cyclic (a field points to its
    oneof, the oneof back to its parent message); the generator follows it
    to a bounded depth only, so a finite unfolding represents it. *)
Inductive DescMessage : Type :=
| Build_DescMessage (typeName : string) (fields : list DescField)
with DescField : Type :=
| Build_DescField (number : Z) (toString : string) (oneof : option DescOneof)
with DescOneof : Type :=
| Build_DescOneof (parent : DescMessage) (fields : list DescField).

Definition DescMessage_typeName (m : DescMessage) : string :=
  match m with Build_DescMessage n _ => n end.

Definition DescMessage_fields (m : DescMessage) : list DescField :=
  match m with Build_DescMessage _ fs => fs end.

Definition DescField_number (f : DescField) : Z :=
  match f with Build_DescField n _ _ => n end.

(** The result of [descField.toString()]. *)
Definition DescField_toString (f : DescField) : string :=
  match f with Build_DescField _ s _ => s end.

Definition DescField_oneof (f : DescField) : option DescOneof :=
  match f with Build_DescField _ _ o => o end.

Definition DescOneof_parent (o : DescOneof) : DescMessage :=
  match o with Build_DescOneof p _ => p end.

Definition DescOneof_fields (o : DescOneof) : list DescField :=
  match o with Build_DescOneof _ fs => fs end.

(** ** Field metadata ([rt.FieldInfo], [rt.IMessageType]) *)

(** [rt.EnumInfo] is a tuple whose first component is the enum type name. *)
Record EnumInfo : Type := { enumTypeName : string }.

Module FieldInfo.

(** The [V] property of a map field.  [V_unknown] stands for a runtime
    value whose [kind] is none of the three the type declares. *)
Inductive MapValue : Type :=
| V_scalar (T : ScalarType.t) (L : option LongType.t)
| V_enum (T : EnumInfo)
| V_message (T : string)
| V_unknown.

(** The [kind] tag with the properties that go with it.  [T] of an enum or
    message field is a thunk; the model holds what the call [T()] returns,
    for a message the [typeName] of the returned type, its only property
    read.  [unknown] stands for a runtime value whose [kind] is none of the
    four the type declares. *)
Inductive Kind : Type :=
| scalar (T : ScalarType.t) (L : option LongType.t)
| enum (T : EnumInfo)
| message (T : string)
| map (K : ScalarType.t) (V : MapValue)
| unknown.

(** Modelled from the spec: [repeat] is read for its truthiness only, the
    spec's [repeated] flag; [opt] likewise is the spec's [optional] flag. *)
Record t : Type :=
  { no : Z;
    localName : string;
    kind : Kind;
    oneof : option string;
    opt : bool;
    repeat : bool }.

End FieldInfo.

Record IMessageType : Type :=
  { typeName : string;
    fields : list FieldInfo.t }.

(** ** Exceptions and effects *)

(** What the generator can throw: a failed [assert] (imported from the
    runtime package), a property read on [undefined], and the [Error] it
    constructs itself. *)
Inductive Exception : Type :=
| AssertionError
| TypeError
| Error (message : string).

(** A computation reads and updates the state [W] of the collaborators
    (the source file, the import table, attached comments) and either
    returns a value or throws.  As in JavaScript, the updates made before
    a [throw] stay. *)
Definition M (W A : Type) : Type := W -> (Exception + A) * W.

Definition ret {W A : Type} (a : A) : M W A := fun w => (inr a, w).

Definition bind {W A B : Type} (m : M W A) (k : A -> M W B) : M W B :=
  fun w =>
    match m w with
    | (inl e, w') => (inl e, w')
    | (inr a, w') => k a w'
    end.

Definition throw {W A : Type} (e : Exception) : M W A := fun w => (inl e, w).

(** [assert(x)] on a value that is an object or [undefined]. *)
Definition assert {W A : Type} (x : option A) : M W A :=
  match x with
  | Some a => ret a
  | None => throw AssertionError
  end.

(** Modelled from the spec: the classes of the collaborators are not part
    of the source file.  By the spec's interface section a collaborator
    call returns its value and may have side effects; it is not a source
    of the generator's errors.  A call is a function from the state before
    to the returned value and the state after. *)
Definition Call (W A : Type) : Type := W -> A * W.

(** A collaborator call inside a computation. *)
Definition call {W A : Type} (c : Call W A) : M W A :=
  fun w => let (a, w') := c w in (inr a, w').

Declare Scope monad_scope.
Delimit Scope monad_scope with monad.
Notation "x <- m ;; k" := (bind m (fun x => k))
  (at level 61, m at next level, right associativity) : monad_scope.
Notation "' pat <- m ;; k" := (bind m (fun x => match x with pat => k end))
  (at level 61, pat pattern, m at next level, right associativity) : monad_scope.
Notation "m ;; k" := (bind m (fun _ => k))
  (at level 61, right associativity) : monad_scope.
Local Open Scope monad_scope.

(** [for (let x of l) body], the body working on the loop state [S]. *)
Fixpoint forOf {W A S : Type} (l : list A) (body : A -> S -> M W S) (s : S)
    : M W S :=
  match l with
  | [] => ret s
  | x :: rest => s' <- body x s ;; forOf rest body s'
  end.

(** ** Collaborators *)

(** The nodes and descriptors handed to the comment generator. *)
Inductive CommentedNode : Type :=
| ParameterNode (p : ts.ParameterDeclaration)
| ClassNode (c : ts.ClassDeclaration).

Inductive AnyDesc : Type :=
| OfMessage (d : DescMessage)
| OfField (d : DescField)
| OfOneof (d : DescOneof).

(** A [TypescriptFile] object: its method [addStatement]. *)
Record TypescriptFile (W : Type) : Type :=
  { addStatement : ts.ClassDeclaration -> Call W unit }.

(** [TypeScriptImports]: both methods return the local name to use for a
    type and may update the file's imports. *)
Record TypeScriptImports (W : Type) : Type :=
  { typeByName : TypescriptFile W -> string -> Call W string;
    type : TypescriptFile W -> DescMessage -> string -> Call W string }.

(** [CommentGenerator]: attaches comments to a node; nothing is returned. *)
Record CommentGenerator (W : Type) : Type :=
  { addCommentsForDescriptor :
      CommentedNode -> AnyDesc -> string -> Call W unit }.

(** [Interpreter]: [getMessageType] accepts a type name or a message
    descriptor. *)
Record Interpreter : Type :=
  { getMessageType : string + DescMessage -> IMessageType }.

Record Options : Type :=
  { oneofKindDiscriminator : string;
    normalLongType : LongType.t }.

(** The generator object.  Its [symbols] property is read by
    [registerSymbols] only and is not part of the model. *)
Record MessageClassGenerator (W : Type) : Type :=
  { imports : TypeScriptImports W;
    comments : CommentGenerator W;
    interpreter : Interpreter;
    options : Options }.

Arguments addStatement {W}.
Arguments typeByName {W}.
Arguments type {W}.
Arguments addCommentsForDescriptor {W}.
Arguments imports {W}.
Arguments comments {W}.
Arguments interpreter {W}.
Arguments options {W}.

(** ** The methods of [MessageClassGenerator] *)

(** [a === b] for [a : string | undefined] and [b : string]. *)
Definition strict_eq (a : option string) (b : string) : bool :=
  match a with
  | Some x => String.eqb x b
  | None => false
  end.

(** [fields.find(d => d.number === no)] *)
Definition findByNumber (fields : list DescField) (no : Z) : option DescField :=
  find (fun descField => Z.eqb (DescField_number descField) no) fields.

(** The state of the loop of [generateMessageClass]. *)
Record LoopState : Type :=
  { processedOneofs : list string;
    ctorParams : list ts.ParameterDeclaration }.

Definition publicReadonly : option (list ts.SyntaxKind.t) :=
  Some [ts.SyntaxKind.PublicKeyword; ts.SyntaxKind.ReadonlyKeyword].

Section Methods.

Context {W : Type}.
Variable this : MessageClassGenerator W.

Definition createMessageTypeNode (source : TypescriptFile W)
    (type_typeName : string) : M W ts.TypeNode :=
  name <- call (typeByName (imports this) source type_typeName) ;;
  ret (ts.createTypeReferenceNode name).

Definition createEnumTypeNode (source : TypescriptFile W) (ei : EnumInfo)
    : M W ts.TypeNode :=
  let enumTypeName := enumTypeName ei in
  name <- call (typeByName (imports this) source enumTypeName) ;;
  ret (ts.createTypeReferenceNode name).

(** The inner switch on [fieldInfo.V.kind] has no [default]: [valueType]
    keeps its initial [undefined]. *)
Definition createMapValueTypeNode (source : TypescriptFile W)
    (V : FieldInfo.MapValue) : M W (option ts.TypeNode) :=
  match V with
  | FieldInfo.V_scalar T L => ret (createScalarTypeNode T L)
  | FieldInfo.V_enum T => t <- createEnumTypeNode source T ;; ret (Some t)
  | FieldInfo.V_message T => t <- createMessageTypeNode source T ;; ret (Some t)
  | FieldInfo.V_unknown => ret None
  end.

Definition createTypeNode (source : TypescriptFile W) (descField : DescField)
    (fieldInfo : FieldInfo.t) : M W (option ts.TypeNode) :=
  type <-
    match FieldInfo.kind fieldInfo with
    | FieldInfo.scalar T L => ret (createScalarTypeNode T L)
    | FieldInfo.enum T => t <- createEnumTypeNode source T ;; ret (Some t)
    | FieldInfo.message T => t <- createMessageTypeNode source T ;; ret (Some t)
    | FieldInfo.map K V =>
        let keyType :=
          if ScalarType.eqb K ScalarType.BOOL
          then Some (ts.createKeywordTypeNode ts.SyntaxKind.StringKeyword)
          else createScalarTypeNode K (Some LongType.STRING) in
        valueType <- createMapValueTypeNode source V ;;
        ret (Some (ts.createTypeLiteralNode
                     [ts.createIndexSignature
                        [ts.createParameter None "key" false keyType]
                        valueType]))
    | FieldInfo.unknown =>
        throw (Error (String.append "unknown kind "
                                    (DescField_toString descField)))
    end ;;
  ret (if FieldInfo.repeat fieldInfo
       then Some (ts.createArrayTypeNode type)
       else type).

(** [descOneof.fields[0]] is [undefined] for an empty array; reading
    [sampleField.number] then throws, which happens inside the callback
    of [find], called only when the metadata has a field at all. *)
Definition oneofInfo (descOneof : DescOneof)
    : M W (DescMessage * IMessageType * string) :=
  let parent := DescOneof_parent descOneof in
  let interpreterType := getMessageType (interpreter this) (inr parent) in
  match DescOneof_fields descOneof with
  | [] =>
      match fields interpreterType with
      | [] => throw AssertionError
      | _ :: _ => throw TypeError
      end
  | sampleField :: _ =>
      sampleFieldInfo <-
        assert (find (fun fi => Z.eqb (FieldInfo.no fi)
                                      (DescField_number sampleField))
                     (fields interpreterType)) ;;
      oneofName <- assert (FieldInfo.oneof sampleFieldInfo) ;;
      ret (parent, interpreterType, oneofName)
  end.

(** The body of the loop over [memberFieldInfos]. *)
Definition oneofCaseStep (source : TypescriptFile W)
    (parentMessageDesc : DescMessage) (fieldInfo : FieldInfo.t)
    (oneofCases : list ts.TypeNode) : M W (list ts.TypeNode) :=
  let kindProperty :=
    ts.createPropertySignature (oneofKindDiscriminator (options this)) false
      (Some (ts.createLiteralTypeNode (FieldInfo.localName fieldInfo))) in
  descField <- assert (findByNumber (DescMessage_fields parentMessageDesc)
                                    (FieldInfo.no fieldInfo)) ;;
  typeNode <- createTypeNode source descField fieldInfo ;;
  let valueProperty :=
    ts.createPropertySignature (FieldInfo.localName fieldInfo)
      (FieldInfo.opt fieldInfo) typeNode in
  ret (oneofCases ++ [ts.createTypeLiteralNode [kindProperty; valueProperty]]).

Definition createOneofADTTypeNode (source : TypescriptFile W)
    (descOneof : DescOneof) : M W ts.TypeNode :=
  ' (parentMessageDesc, interpreterType, oneofLocalName) <- oneofInfo descOneof ;;
  let memberFieldInfos :=
    filter (fun fi => strict_eq (FieldInfo.oneof fi) oneofLocalName)
           (fields interpreterType) in
  oneofCases <- forOf memberFieldInfos (oneofCaseStep source parentMessageDesc) [] ;;
  ret (ts.createUnionTypeNode
         (oneofCases ++
          [ts.createTypeLiteralNode
             [ts.createPropertySignature (oneofKindDiscriminator (options this))
                false
                (Some (ts.createKeywordTypeNode ts.SyntaxKind.UndefinedKeyword))]])).

(** The body of the loop over [interpreterType.fields]; [continue] returns
    the loop state as it is. *)
Definition fieldStep (source : TypescriptFile W) (descMessage : DescMessage)
    (fieldInfo : FieldInfo.t) (st : LoopState) : M W LoopState :=
  descField <- assert (findByNumber (DescMessage_fields descMessage)
                                    (FieldInfo.no fieldInfo)) ;;
  match truthy (FieldInfo.oneof fieldInfo), DescField_oneof descField with
  | Some fieldInfo_oneof, Some descField_oneof =>
      if includes (processedOneofs st) fieldInfo_oneof then ret st
      else
        ' (_, _, oneofLocalName) <- oneofInfo descField_oneof ;;
        oneofType <- createOneofADTTypeNode source descField_oneof ;;
        let param :=
          ts.createParameter publicReadonly oneofLocalName false
            (Some oneofType) in
        call (addCommentsForDescriptor (comments this) (ParameterNode param)
                (OfOneof descField_oneof) "appendToLeadingBlock") ;;
        ret {| processedOneofs := processedOneofs st ++ [fieldInfo_oneof];
               ctorParams := ctorParams st ++ [param] |}
  | _, _ =>
      type <- createTypeNode source descField fieldInfo ;;
      let param :=
        ts.createParameter publicReadonly (FieldInfo.localName fieldInfo)
          (FieldInfo.opt fieldInfo) type in
      call (addCommentsForDescriptor (comments this) (ParameterNode param)
              (OfField descField) "trailingLines") ;;
      ret {| processedOneofs := processedOneofs st;
             ctorParams := ctorParams st ++ [param] |}
  end.

Definition generateMessageClass (source : TypescriptFile W)
    (descMessage : DescMessage) : M W ts.ClassDeclaration :=
  let interpreterType :=
    getMessageType (interpreter this) (inl (DescMessage_typeName descMessage)) in
  st <- forOf (fields interpreterType) (fieldStep source descMessage)
          {| processedOneofs := []; ctorParams := [] |} ;;
  let members := [ts.createConstructor (ctorParams st)] in
  name <- call (type (imports this) source descMessage "message-class") ;;
  let statement :=
    ts.createClassDeclaration [ts.SyntaxKind.ExportKeyword] name members in
  call (addStatement source statement) ;;
  call (addCommentsForDescriptor (comments this) (ClassNode statement)
          (OfMessage descMessage) "appendToLeadingBlock") ;;
  ret statement.

End Methods.

(** ** A concrete generator: the message [Shape]

    The message has the fields [width] (int32, number 1) and [area]
    (uint64, number 2) and the oneof group [selector] with the members
    [label] (string, number 3) and [anchor] (message [Point], number 4). *)
Module Shape.

(** The collaborators' state: the statements of the source file, the type
    names resolved so far and the number of comment attachments. *)
Record World : Type :=
  { statements : list ts.ClassDeclaration;
    imported : list string;
    commented : nat }.

Definition emptyWorld : World :=
  {| statements := []; imported := []; commented := 0 |}.

Definition source : TypescriptFile World :=
  {| addStatement := fun c w =>
       (tt, {| statements := statements w ++ [c];
               imported := imported w;
               commented := commented w |}) |}.

Definition shapeImports : TypeScriptImports World :=
  {| typeByName := fun _ name w =>
       (name, {| statements := statements w;
                 imported := imported w ++ [name];
                 commented := commented w |});
     type := fun _ descMessage _ w =>
       (String.append (DescMessage_typeName descMessage) "Ctor", w) |}.

Definition shapeComments : CommentGenerator World :=
  {| addCommentsForDescriptor := fun _ _ _ w =>
       (tt, {| statements := statements w;
               imported := imported w;
               commented := S (commented w) |}) |}.

Definition plainField (number : Z) (name : string) : DescField :=
  Build_DescField number (String.append "field Shape." name) None.

Definition parentMessage : DescMessage :=
  Build_DescMessage "Shape"
    [plainField 1 "width"; plainField 2 "area"; plainField 3 "label";
     plainField 4 "anchor"].

Definition selector : DescOneof :=
  Build_DescOneof parentMessage [plainField 3 "label"; plainField 4 "anchor"].

Definition memberField (number : Z) (name : string) : DescField :=
  Build_DescField number (String.append "field Shape." name) (Some selector).

Definition descMessage : DescMessage :=
  Build_DescMessage "Shape"
    [plainField 1 "width"; plainField 2 "area"; memberField 3 "label";
     memberField 4 "anchor"].

Definition fieldInfo (no : Z) (localName : string) (kind : FieldInfo.Kind)
    (oneof : option string) : FieldInfo.t :=
  {| FieldInfo.no := no; FieldInfo.localName := localName;
     FieldInfo.kind := kind; FieldInfo.oneof := oneof;
     FieldInfo.opt := false; FieldInfo.repeat := false |}.

Definition messageType : IMessageType :=
  {| typeName := "Shape";
     fields :=
       [fieldInfo 1 "width" (FieldInfo.scalar ScalarType.INT32 None) None;
        fieldInfo 2 "area" (FieldInfo.scalar ScalarType.UINT64 None) None;
        fieldInfo 3 "label" (FieldInfo.scalar ScalarType.STRING None)
          (Some "selector");
        fieldInfo 4 "anchor" (FieldInfo.message "Point") (Some "selector")] |}.

Definition generator (fieldsOf : string + DescMessage -> IMessageType)
    (normalLongType : LongType.t) : MessageClassGenerator World :=
  {| imports := shapeImports;
     comments := shapeComments;
     interpreter := {| getMessageType := fieldsOf |};
     options := {| oneofKindDiscriminator := "kind";
                   normalLongType := normalLongType |} |}.

Definition this : MessageClassGenerator World :=
  generator (fun _ => messageType) LongType.STRING.

(** [{kind: "label", label: string} | {kind: "anchor", anchor: Point} |
     {kind: undefined}] *)
Definition selectorType : ts.TypeNode :=
  ts.createUnionTypeNode
    [ts.createTypeLiteralNode
       [ts.createPropertySignature "kind" false
          (Some (ts.createLiteralTypeNode "label"));
        ts.createPropertySignature "label" false
          (Some (ts.createKeywordTypeNode ts.SyntaxKind.StringKeyword))];
     ts.createTypeLiteralNode
       [ts.createPropertySignature "kind" false
          (Some (ts.createLiteralTypeNode "anchor"));
        ts.createPropertySignature "anchor" false
          (Some (ts.createTypeReferenceNode "Point"))];
     ts.createTypeLiteralNode
       [ts.createPropertySignature "kind" false
          (Some (ts.createKeywordTypeNode ts.SyntaxKind.UndefinedKeyword))]].

Definition expectedParams : list ts.ParameterDeclaration :=
  [ts.createParameter publicReadonly "width" false
     (Some (ts.createKeywordTypeNode ts.SyntaxKind.NumberKeyword));
   ts.createParameter publicReadonly "area" false
     (Some (ts.createKeywordTypeNode ts.SyntaxKind.StringKeyword));
   ts.createParameter publicReadonly "selector" false (Some selectorType)].

Definition expectedClass : ts.ClassDeclaration :=
  ts.createClassDeclaration [ts.SyntaxKind.ExportKeyword] "ShapeCtor"
    [ts.createConstructor expectedParams].

End Shape.

(** ** Vocabulary of the properties *)

(** The generator [Shape.this] configured with the native-number policy,
    and the metadata of the field [area]. *)
Definition numberGenerator : MessageClassGenerator Shape.World :=
  Shape.generator (fun _ => Shape.messageType) LongType.NUMBER.

Definition areaInfo : FieldInfo.t :=
  Shape.fieldInfo 2 "area" (FieldInfo.scalar ScalarType.UINT64 None) None.

(** Modelled from the spec: the [Interpreter], which builds the field
    metadata from the options the generator is built from, is not part of
    the source file.  By the spec the configured LongRepresentation is
    applied to every width-64 field unless the field itself overrides it. *)
Definition effectiveLongType (normalLongType : LongType.t)
    (override : option LongType.t) : LongType.t :=
  nullish override normalLongType.

(** Modelled from the spec: the [L] the Interpreter gives a width-64 field.
    It carries the effective policy and is left absent when that policy is
    the textual form, which is what an absent [L] stands for. *)
Definition interpretedL (normalLongType : LongType.t)
    (override : option LongType.t) : option LongType.t :=
  let l := effectiveLongType normalLongType override in
  if LongType.eqb l LongType.STRING then None else Some l.

(** Metadata for [Shape] whose field [area] has a kind outside the four
    declared ones, and a generator that reads it. *)
Definition unknownInfo : FieldInfo.t :=
  Shape.fieldInfo 2 "area" FieldInfo.unknown None.

Definition unknownGenerator : MessageClassGenerator Shape.World :=
  Shape.generator
    (fun _ =>
       {| typeName := "Shape";
          fields :=
            [Shape.fieldInfo 1 "width" (FieldInfo.scalar ScalarType.INT32 None)
               None;
             unknownInfo] |})
    LongType.STRING.

(** Metadata for [Shape] whose field [anchor], a member of the group
    [selector], has a kind outside the four declared ones. *)
Definition unknownMemberInfo : FieldInfo.t :=
  Shape.fieldInfo 4 "anchor" FieldInfo.unknown (Some "selector").

Definition unknownMemberGenerator : MessageClassGenerator Shape.World :=
  Shape.generator
    (fun _ =>
       {| typeName := "Shape";
          fields :=
            [Shape.fieldInfo 1 "width" (FieldInfo.scalar ScalarType.INT32 None)
               None;
             Shape.fieldInfo 2 "area" (FieldInfo.scalar ScalarType.UINT64 None)
               None;
             Shape.fieldInfo 3 "label" (FieldInfo.scalar ScalarType.STRING None)
               (Some "selector");
             unknownMemberInfo] |})
    LongType.STRING.

(** The message [Lone]: its only field, number 1, is the sample member of
    the oneof [loneGroup] in the descriptor, and has no group name in the
    metadata. *)
Definition loneGroup : DescOneof :=
  Build_DescOneof
    (Build_DescMessage "Lone" [Build_DescField 1 "field Lone.only" None])
    [Build_DescField 1 "field Lone.only" None].

Definition loneMessage : DescMessage :=
  Build_DescMessage "Lone"
    [Build_DescField 1 "field Lone.only" (Some loneGroup)].

Definition loneInfo : FieldInfo.t :=
  Shape.fieldInfo 1 "only" (FieldInfo.scalar ScalarType.INT32 None) None.

Definition loneGenerator : MessageClassGenerator Shape.World :=
  Shape.generator (fun _ => {| typeName := "Lone"; fields := [loneInfo] |})
    LongType.STRING.

(** Metadata for [Shape] with a fifth field that the descriptor does not
    have. *)
Definition strayInfo : FieldInfo.t :=
  Shape.fieldInfo 9 "stray" (FieldInfo.scalar ScalarType.BOOL None) None.

Definition strayGenerator : MessageClassGenerator Shape.World :=
  Shape.generator
    (fun _ =>
       {| typeName := "Shape";
          fields := fields Shape.messageType ++ [strayInfo] |})
    LongType.STRING.

(** Metadata for [Shape] in which [label], the sample member of the group
    [selector], has no group name, while [anchor] has one. *)
Definition ungroupedSampleGenerator : MessageClassGenerator Shape.World :=
  Shape.generator
    (fun _ =>
       {| typeName := "Shape";
          fields :=
            [Shape.fieldInfo 1 "width" (FieldInfo.scalar ScalarType.INT32 None)
               None;
             Shape.fieldInfo 2 "area" (FieldInfo.scalar ScalarType.UINT64 None)
               None;
             Shape.fieldInfo 3 "label" (FieldInfo.scalar ScalarType.STRING None)
               None;
             Shape.fieldInfo 4 "anchor" (FieldInfo.message "Point")
               (Some "selector")] |})
    LongType.STRING.

(** The metadata of a message has a field with no schema field of its
    number. *)
Definition field_missing_in_descriptor (descMessage : DescMessage)
    (fieldInfo : FieldInfo.t) : Prop :=
  findByNumber (DescMessage_fields descMessage) (FieldInfo.no fieldInfo) = None.

(** The descriptor has a oneof whose sample member is in the metadata and
    has no group name there. *)
Definition sample_member_without_group {W : Type}
    (this : MessageClassGenerator W) (descOneof : DescOneof) : Prop :=
  exists sampleField rest sampleFieldInfo,
    DescOneof_fields descOneof = sampleField :: rest /\
    find (fun fi => Z.eqb (FieldInfo.no fi) (DescField_number sampleField))
         (fields (getMessageType (interpreter this)
                    (inr (DescOneof_parent descOneof))))
    = Some sampleFieldInfo /\
    FieldInfo.oneof sampleFieldInfo = None.

(** The reading of the error rule under which every such disagreement of
    metadata and descriptor makes the generation of the message fail. *)
Definition disagreement_always_fatal : Prop :=
  forall (W : Type) (this : MessageClassGenerator W) source descMessage w,
    ((exists fieldInfo,
         In fieldInfo
            (fields (getMessageType (interpreter this)
                       (inl (DescMessage_typeName descMessage)))) /\
         field_missing_in_descriptor descMessage fieldInfo) \/
     (exists descField descOneof,
         In descField (DescMessage_fields descMessage) /\
         DescField_oneof descField = Some descOneof /\
         sample_member_without_group this descOneof)) ->
    exists e w', generateMessageClass this source descMessage w = (inl e, w').

(** What the loop of [generateMessageClass] checks at a field, given the
    groups processed so far: the field has no schema field, or metadata and
    descriptor both place it in a group not yet processed whose sample
    member is absent from the metadata or has no group name there. *)
Definition contract_violation {W : Type} (this : MessageClassGenerator W)
    (descMessage : DescMessage) (processed : list string)
    (fieldInfo : FieldInfo.t) : Prop :=
  field_missing_in_descriptor descMessage fieldInfo \/
  (exists descField groupName descOneof sampleField rest,
      findByNumber (DescMessage_fields descMessage) (FieldInfo.no fieldInfo)
      = Some descField /\
      truthy (FieldInfo.oneof fieldInfo) = Some groupName /\
      DescField_oneof descField = Some descOneof /\
      includes processed groupName = false /\
      DescOneof_fields descOneof = sampleField :: rest /\
      match find (fun fi => Z.eqb (FieldInfo.no fi)
                                  (DescField_number sampleField))
                 (fields (getMessageType (interpreter this)
                            (inr (DescOneof_parent descOneof)))) with
      | Some sampleFieldInfo => FieldInfo.oneof sampleFieldInfo = None
      | None => True
      end).

(** The members of a group as [createOneofADTTypeNode] selects them: the
    metadata fields of the parent message that carry the group's name, in
    the order of the metadata. *)
Definition memberFieldInfos {W : Type} (this : MessageClassGenerator W)
    (descOneof : DescOneof) (oneofLocalName : string) : list FieldInfo.t :=
  filter (fun fi => strict_eq (FieldInfo.oneof fi) oneofLocalName)
         (fields (getMessageType (interpreter this)
                    (inr (DescOneof_parent descOneof)))).

(** [oneofCase] is the union case of the member [fieldInfo]: the type
    literal of the discriminator, typed by the literal of the member's
    local name, and of the value property, of the type the resolver returns
    for the member. *)
Definition is_member_case {W : Type} (this : MessageClassGenerator W)
    (source : TypescriptFile W) (parentMessageDesc : DescMessage)
    (fieldInfo : FieldInfo.t) (oneofCase : ts.TypeNode) : Prop :=
  exists descField typeNode w1 w2,
    findByNumber (DescMessage_fields parentMessageDesc) (FieldInfo.no fieldInfo)
    = Some descField /\
    createTypeNode this source descField fieldInfo w1 = (inr typeNode, w2) /\
    oneofCase
    = ts.createTypeLiteralNode
        [ts.createPropertySignature (oneofKindDiscriminator (options this))
           false
           (Some (ts.createLiteralTypeNode (FieldInfo.localName fieldInfo)));
         ts.createPropertySignature (FieldInfo.localName fieldInfo)
           (FieldInfo.opt fieldInfo) typeNode].

(** The group under which the loop of [generateMessageClass] treats a
    field: the metadata gives a non-empty group name and the schema field
    of the same number has a oneof. *)
Definition groupOf (descMessage : DescMessage) (fieldInfo : FieldInfo.t)
    : option (string * DescOneof) :=
  match findByNumber (DescMessage_fields descMessage) (FieldInfo.no fieldInfo) with
  | Some descField =>
      match truthy (FieldInfo.oneof fieldInfo), DescField_oneof descField with
      | Some groupName, Some descOneof => Some (groupName, descOneof)
      | _, _ => None
      end
  | None => None
  end.

Definition inGroup (descMessage : DescMessage) (groupName : string)
    (fieldInfo : FieldInfo.t) : bool :=
  match groupOf descMessage fieldInfo with
  | Some (g, _) => String.eqb g groupName
  | None => false
  end.

(** The fields for which the loop emits a parameter, given the groups
    already processed: every field outside a group, and of each group the
    first field the loop meets. *)
Fixpoint emitting (descMessage : DescMessage) (processed : list string)
    (fieldInfos : list FieldInfo.t) : list FieldInfo.t :=
  match fieldInfos with
  | [] => []
  | fieldInfo :: rest =>
      match groupOf descMessage fieldInfo with
      | Some (groupName, _) =>
          if includes processed groupName
          then emitting descMessage processed rest
          else fieldInfo :: emitting descMessage (processed ++ [groupName]) rest
      | None => fieldInfo :: emitting descMessage processed rest
      end
  end.

(** [param] is the parameter emitted for [fieldInfo]: for a field of a
    group, the parameter named by the group's local name, typed by the
    group's union type, without question token; for any other field, the
    parameter named by the field, typed by the resolver, with the question
    token when the field is optional. *)
Definition emitted_for {W : Type} (this : MessageClassGenerator W)
    (source : TypescriptFile W) (descMessage : DescMessage)
    (fieldInfo : FieldInfo.t) (param : ts.ParameterDeclaration) : Prop :=
  match groupOf descMessage fieldInfo with
  | Some (_, descOneof) =>
      exists parent interpreterType oneofLocalName oneofType w1 w2 w3,
        oneofInfo this descOneof w1
        = (inr (parent, interpreterType, oneofLocalName), w1) /\
        createOneofADTTypeNode this source descOneof w2 = (inr oneofType, w3) /\
        param = ts.createParameter publicReadonly oneofLocalName false
                  (Some oneofType)
  | None =>
      exists descField type w1 w2,
        findByNumber (DescMessage_fields descMessage) (FieldInfo.no fieldInfo)
        = Some descField /\
        createTypeNode this source descField fieldInfo w1 = (inr type, w2) /\
        param = ts.createParameter publicReadonly
                  (FieldInfo.localName fieldInfo) (FieldInfo.opt fieldInfo) type
  end.

(** The metadata of a field agrees with the descriptor: the field has a
    schema field; outside a group its kind is a declared one; in a group,
    the group's sample member is in the metadata with a group name, and
    every member has a schema field in the parent and a declared kind. *)
Definition well_formed_field {W : Type} (this : MessageClassGenerator W)
    (descMessage : DescMessage) (fieldInfo : FieldInfo.t) : Prop :=
  findByNumber (DescMessage_fields descMessage) (FieldInfo.no fieldInfo)
  <> None /\
  match groupOf descMessage fieldInfo with
  | Some (_, descOneof) =>
      exists sampleField rest sampleFieldInfo oneofName,
        DescOneof_fields descOneof = sampleField :: rest /\
        find (fun fi => Z.eqb (FieldInfo.no fi) (DescField_number sampleField))
             (fields (getMessageType (interpreter this)
                        (inr (DescOneof_parent descOneof))))
        = Some sampleFieldInfo /\
        FieldInfo.oneof sampleFieldInfo = Some oneofName /\
        (forall fi, In fi (memberFieldInfos this descOneof oneofName) ->
           findByNumber (DescMessage_fields (DescOneof_parent descOneof))
             (FieldInfo.no fi) <> None /\
           FieldInfo.kind fi <> FieldInfo.unknown)
  | None => FieldInfo.kind fieldInfo <> FieldInfo.unknown
  end.

(** The names the import resolver returns do not depend on the state in
    which it is called. *)
Definition deterministic_resolvers {W : Type} (this : MessageClassGenerator W)
    : Prop :=
  (forall source name w w',
      fst (typeByName (imports this) source name w)
      = fst (typeByName (imports this) source name w')) /\
  (forall source descMessage kind w w',
      fst (type (imports this) source descMessage kind w)
      = fst (type (imports this) source descMessage kind w')).

(** The result of a computation does not depend on the state it runs in. *)
Definition stateless {W A : Type} (m : M W A) : Prop :=
  forall w w', fst (m w) = fst (m w').

(** ** The methods outside the constructor path

    [registerSymbols], [createFieldPropertyDeclaration] and
    [createOneofADTPropertyDeclaration]. *)

(** A property declaration of a class, named after [ts.createProperty]; the
    decorators and the initializer, always [undefined], are left out. *)
Inductive PropertyDeclaration : Type :=
| createProperty (modifiers : option (list ts.SyntaxKind.t)) (name : string)
    (questionToken : bool) (type : option ts.TypeNode).

(** [SymbolTable]: its method [register], a collaborator call. *)
Record SymbolTable (W : Type) : Type :=
  { register : string -> DescMessage -> TypescriptFile W -> string
               -> Call W unit }.

(** What these methods use beside the generator object as modelled above:
    the [symbols] property, the imported function [createLocalTypeName],
    which is not part of the source file, and the comment generator's
    [addCommentsForDescriptor] at a property declaration node. *)
Record Surroundings (W : Type) : Type :=
  { symbols : SymbolTable W;
    createLocalTypeName : DescMessage -> string;
    addCommentsForProperty :
      PropertyDeclaration -> AnyDesc -> string -> Call W unit }.

Arguments register {W}.
Arguments symbols {W}.
Arguments createLocalTypeName {W}.
Arguments addCommentsForProperty {W}.

Section OtherMethods.

Context {W : Type}.
Variable this : MessageClassGenerator W.
Variable env : Surroundings W.

Definition registerSymbols (source : TypescriptFile W)
    (descMessage : DescMessage) : M W unit :=
  let className := String.append (createLocalTypeName env descMessage) "Ctor" in
  call (register (symbols env) className descMessage source "message-class").

Definition createFieldPropertyDeclaration (source : TypescriptFile W)
    (descField : DescField) (fieldInfo : FieldInfo.t)
    : M W PropertyDeclaration :=
  type <- createTypeNode this source descField fieldInfo ;;
  let property :=
    createProperty publicReadonly (FieldInfo.localName fieldInfo)
      (FieldInfo.opt fieldInfo) type in
  call (addCommentsForProperty env property (OfField descField)
          "trailingLines") ;;
  ret property.

(** The body of the loop over [memberFieldInfos] in
    [createOneofADTPropertyDeclaration]. *)
Definition oneofPropertyCaseStep (source : TypescriptFile W)
    (parentMessageDesc : DescMessage) (fieldInfo : FieldInfo.t)
    (oneofCases : list ts.TypeNode) : M W (list ts.TypeNode) :=
  let kindProperty :=
    ts.createPropertySignature (oneofKindDiscriminator (options this)) false
      (Some (ts.createLiteralTypeNode (FieldInfo.localName fieldInfo))) in
  descField <- assert (findByNumber (DescMessage_fields parentMessageDesc)
                                    (FieldInfo.no fieldInfo)) ;;
  typeNode <- createTypeNode this source descField fieldInfo ;;
  let valueProperty :=
    ts.createPropertySignature (FieldInfo.localName fieldInfo)
      (FieldInfo.opt fieldInfo) typeNode in
  ret (oneofCases ++ [ts.createTypeLiteralNode [kindProperty; valueProperty]]).

Definition createOneofADTPropertyDeclaration (source : TypescriptFile W)
    (descOneof : DescOneof) : M W PropertyDeclaration :=
  ' (parentMessageDesc, interpreterType, oneofLocalName) <- oneofInfo this descOneof ;;
  let memberFieldInfos :=
    filter (fun fi => strict_eq (FieldInfo.oneof fi) oneofLocalName)
           (fields interpreterType) in
  oneofCases <- forOf memberFieldInfos
                  (oneofPropertyCaseStep source parentMessageDesc) [] ;;
  let oneofCases :=
    oneofCases ++
    [ts.createTypeLiteralNode
       [ts.createPropertySignature (oneofKindDiscriminator (options this))
          false
          (Some (ts.createKeywordTypeNode ts.SyntaxKind.UndefinedKeyword))]] in
  let property :=
    createProperty publicReadonly oneofLocalName false
      (Some (ts.createUnionTypeNode oneofCases)) in
  call (addCommentsForProperty env property (OfOneof descOneof)
          "appendToLeadingBlock") ;;
  ret property.

End OtherMethods.

(** ** Vocabulary of the further properties *)

(** The field metadata with its [repeat] flag set to [b]. *)
Definition withRepeat (b : bool) (fieldInfo : FieldInfo.t) : FieldInfo.t :=
  {| FieldInfo.no := FieldInfo.no fieldInfo;
     FieldInfo.localName := FieldInfo.localName fieldInfo;
     FieldInfo.kind := FieldInfo.kind fieldInfo;
     FieldInfo.oneof := FieldInfo.oneof fieldInfo;
     FieldInfo.opt := FieldInfo.opt fieldInfo;
     FieldInfo.repeat := b |}.

(** The type name a field refers to: that of its enum or message, or of
    the enum or message of its map values. *)
Definition referencedTypeName (kind : FieldInfo.Kind) : option string :=
  match kind with
  | FieldInfo.enum T => Some (enumTypeName T)
  | FieldInfo.message T => Some T
  | FieldInfo.map _ (FieldInfo.V_enum T) => Some (enumTypeName T)
  | FieldInfo.map _ (FieldInfo.V_message T) => Some T
  | _ => None
  end.

Definition parameterName (p : ts.ParameterDeclaration) : string :=
  match p with ts.createParameter _ name _ _ => name end.

Definition parameterQuestionToken (p : ts.ParameterDeclaration) : bool :=
  match p with ts.createParameter _ _ questionToken _ => questionToken end.


(** The metadata of a field of the kind of the map value [V], not
    repeated, otherwise as [fieldInfo]. *)
Definition valueField (fieldInfo : FieldInfo.t) (V : FieldInfo.MapValue)
    : FieldInfo.t :=
  {| FieldInfo.no := FieldInfo.no fieldInfo;
     FieldInfo.localName := FieldInfo.localName fieldInfo;
     FieldInfo.kind :=
       match V with
       | FieldInfo.V_scalar T L => FieldInfo.scalar T L
       | FieldInfo.V_enum T => FieldInfo.enum T
       | FieldInfo.V_message T => FieldInfo.message T
       | FieldInfo.V_unknown => FieldInfo.unknown
       end;
     FieldInfo.oneof := FieldInfo.oneof fieldInfo;
     FieldInfo.opt := FieldInfo.opt fieldInfo;
     FieldInfo.repeat := false |}.

(** A symbol table and comment generator for [Shape], counting their calls
    in [Shape.commented]. *)
Definition shapeSurroundings : Surroundings Shape.World :=
  {| symbols :=
       {| register := fun _ _ _ _ w =>
            (tt, {| Shape.statements := Shape.statements w;
                    Shape.imported := Shape.imported w;
                    Shape.commented := S (Shape.commented w) |}) |};
     createLocalTypeName := DescMessage_typeName;
     addCommentsForProperty := fun _ _ _ w =>
       (tt, {| Shape.statements := Shape.statements w;
               Shape.imported := Shape.imported w;
               Shape.commented := S (Shape.commented w) |}) |}.

(** * Properties *)

(** The spec's concrete scenario: the class generated for [Shape] has the
    three parameters [width: number], [area: string] and [selector] of the
    union type, and is added to the source file. *)
Example generateMessageClass_Shape :
  generateMessageClass Shape.this Shape.source Shape.descMessage Shape.emptyWorld
  = (inr Shape.expectedClass,
     {| Shape.statements := [Shape.expectedClass];
        Shape.imported := ["Point"];
        Shape.commented := 4 |}).
Proof. reflexivity. Qed.

(** ** Running computations *)

Section Running.

Context {W : Type}.

Lemma bind_inr {A B : Type} (m : M W A) (k : A -> M W B) w a w' :
  m w = (inr a, w') -> bind m k w = k a w'.
Proof. intros H. unfold bind. rewrite H. reflexivity. Qed.

Lemma bind_inl {A B : Type} (m : M W A) (k : A -> M W B) w e w' :
  m w = (inl e, w') -> bind m k w = (inl e, w').
Proof. intros H. unfold bind. rewrite H. reflexivity. Qed.

(** A computation either throws or returns. *)
Lemma run_cases {A : Type} (m : M W A) w :
  (exists e w', m w = (inl e, w')) \/ (exists a w', m w = (inr a, w')).
Proof.
  destruct (m w) as [[e | a] w'] eqn:E; [left | right]; eauto.
Qed.

Lemma bind_assert_Some {A B : Type} (a : A) (k : A -> M W B) w :
  bind (assert (Some a)) k w = k a w.
Proof. reflexivity. Qed.

Lemma bind_assert_None {A B : Type} (k : A -> M W B) w :
  bind (assert None) k w = (inl AssertionError, w).
Proof. reflexivity. Qed.

Lemma call_run {A : Type} (c : Call W A) w :
  call c w = (inr (fst (c w)), snd (c w)).
Proof. unfold call. destruct (c w). reflexivity. Qed.

Lemma forOf_app {A S : Type} (l1 l2 : list A) (body : A -> S -> M W S) s w :
  forOf (l1 ++ l2) body s w = bind (forOf l1 body s) (forOf l2 body) w.
Proof.
  revert s w. induction l1 as [| x l1 IH]; intros s w; simpl.
  - reflexivity.
  - unfold bind in *. destruct (body x s w) as [[e | s'] w'].
    + reflexivity.
    + apply IH.
Qed.

(** The loop stops at the first iteration that throws. *)
Lemma forOf_throws {A S : Type} (pre post : list A) x
    (body : A -> S -> M W S) s w s1 w1 e w2 :
  forOf pre body s w = (inr s1, w1) ->
  body x s1 w1 = (inl e, w2) ->
  forOf (pre ++ x :: post) body s w = (inl e, w2).
Proof.
  intros Hpre Hx. rewrite forOf_app. rewrite (bind_inr _ _ _ _ _ Hpre).
  simpl. apply bind_inl. exact Hx.
Qed.

End Running.

(** ** The scalar table *)

(** Every label of the enumeration is a case label of the outer switch. *)
Lemma scalar_cases_cover (scalarType : ScalarType.t) :
  scalar_case scalarType
    [ScalarType.BOOL; ScalarType.STRING; ScalarType.BYTES;
     ScalarType.DOUBLE; ScalarType.FLOAT; ScalarType.INT32;
     ScalarType.FIXED32; ScalarType.UINT32; ScalarType.SFIXED32;
     ScalarType.SINT32;
     ScalarType.SFIXED64; ScalarType.INT64; ScalarType.UINT64;
     ScalarType.FIXED64; ScalarType.SINT64] = true.
Proof. destruct scalarType; reflexivity. Qed.

Lemma createScalarTypeNode_returns (scalarType : ScalarType.t)
    (longType : option LongType.t) :
  exists node, createScalarTypeNode scalarType longType = Some node.
Proof.
  destruct scalarType; destruct longType as [[] |]; eexists; reflexivity.
Qed.

(** C9: the scalar translation is total: for every member of the scalar
    enumeration and every long type, given or absent, it returns a type
    node; no member falls through the switches. *)
Theorem createScalarTypeNode_total :
  forall (scalarType : ScalarType.t) (longType : option LongType.t),
    exists node : ts.TypeNode,
      createScalarTypeNode scalarType longType = Some node /\
      createScalarTypeNode scalarType longType <> None.
Proof.
  intros scalarType longType.
  destruct (createScalarTypeNode_returns scalarType longType) as [node H].
  exists node. split; [exact H | rewrite H; discriminate].
Qed.

Lemma createScalarTypeNode_not_long (T : ScalarType.t)
    (L L' : option LongType.t) :
  ScalarType.is_long T = false ->
  createScalarTypeNode T L = createScalarTypeNode T L'.
Proof. destruct T; intros H; try discriminate H; reflexivity. Qed.

Lemma createScalarTypeNode_long (T : ScalarType.t) (L : option LongType.t) :
  ScalarType.is_long T = true ->
  createScalarTypeNode T L = Some (longTypeNode (nullish L LongType.STRING)).
Proof.
  destruct T; intros H; try discriminate H; destruct L as [[] |]; reflexivity.
Qed.

(** The resolver on a scalar field: no collaborator is called. *)
Lemma createTypeNode_scalar {W : Type} (this : MessageClassGenerator W)
    source descField fieldInfo T L w :
  FieldInfo.kind fieldInfo = FieldInfo.scalar T L ->
  createTypeNode this source descField fieldInfo w
  = (inr (if FieldInfo.repeat fieldInfo
          then Some (ts.createArrayTypeNode (createScalarTypeNode T L))
          else createScalarTypeNode T L), w).
Proof. intros H. unfold createTypeNode. rewrite H. reflexivity. Qed.

(** C8: for a scalar kind that is not a width-64 integer the resolved type
    is one fixed node, whatever long type the field carries, and two runs
    of the resolver that differ in the generator's options and in the
    field's long type only return the same result. *)
Theorem scalar_type_independent_of_long_policy :
  forall T : ScalarType.t,
    ScalarType.is_long T = false ->
    (exists node, forall L, createScalarTypeNode T L = Some node) /\
    (forall (W : Type) (this this' : MessageClassGenerator W) source descField
            fieldInfo fieldInfo' L L' w,
        FieldInfo.kind fieldInfo = FieldInfo.scalar T L ->
        FieldInfo.kind fieldInfo' = FieldInfo.scalar T L' ->
        FieldInfo.repeat fieldInfo = FieldInfo.repeat fieldInfo' ->
        createTypeNode this source descField fieldInfo w
        = createTypeNode this' source descField fieldInfo' w).
Proof.
  intros T HT. split.
  - destruct (createScalarTypeNode_returns T None) as [node Hnode].
    exists node. intros L.
    rewrite (createScalarTypeNode_not_long T L None HT). exact Hnode.
  - intros W this this' source descField fieldInfo fieldInfo' L L' w HK HK' HR.
    rewrite (createTypeNode_scalar this _ _ _ _ _ _ HK).
    rewrite (createTypeNode_scalar this' _ _ _ _ _ _ HK').
    rewrite HR, (createScalarTypeNode_not_long T L L' HT). reflexivity.
Qed.

(** The kind int32. *)
Lemma scalar_type_independent_of_long_policy_int32 :
  (exists node, forall L, createScalarTypeNode ScalarType.INT32 L = Some node) /\
  (forall (W : Type) (this this' : MessageClassGenerator W) source descField
          fieldInfo fieldInfo' L L' w,
      FieldInfo.kind fieldInfo = FieldInfo.scalar ScalarType.INT32 L ->
      FieldInfo.kind fieldInfo' = FieldInfo.scalar ScalarType.INT32 L' ->
      FieldInfo.repeat fieldInfo = FieldInfo.repeat fieldInfo' ->
      createTypeNode this source descField fieldInfo w
      = createTypeNode this' source descField fieldInfo' w).
Proof.
  exact (scalar_type_independent_of_long_policy ScalarType.INT32 eq_refl).
Defined.

(** ** Width-64 integer fields *)

(** The generator reads the long type of a width-64 integer field from the
    field metadata: the three-way switch is taken on the field's [L], and
    on [STRING] when [L] is absent. *)
Lemma long_field_resolved_by_field_policy {W : Type}
    (this : MessageClassGenerator W) source descField fieldInfo T L w :
  FieldInfo.kind fieldInfo = FieldInfo.scalar T L ->
  ScalarType.is_long T = true ->
  createTypeNode this source descField fieldInfo w
  = (inr (if FieldInfo.repeat fieldInfo
          then Some (ts.createArrayTypeNode
                       (Some (longTypeNode (nullish L LongType.STRING))))
          else Some (longTypeNode (nullish L LongType.STRING))), w).
Proof.
  intros HK HT.
  rewrite (createTypeNode_scalar this _ _ _ _ _ _ HK).
  rewrite (createScalarTypeNode_long T L HT). reflexivity.
Qed.

(** The [L] of the Interpreter stands for the effective policy. *)
Lemma interpretedL_policy (normalLongType : LongType.t)
    (override : option LongType.t) :
  nullish (interpretedL normalLongType override) LongType.STRING
  = effectiveLongType normalLongType override.
Proof.
  unfold interpretedL.
  destruct (effectiveLongType normalLongType override); reflexivity.
Qed.

(** C1: a width-64 integer field whose metadata comes from the Interpreter
    resolves by the three-way switch on the LongRepresentation policy
    (string type for the textual form, number type for the native number,
    bigint type for the arbitrary-precision integer), and the policy is the
    field's own override when it has one and the configured
    [normalLongType] whenever it has none.  The same holds when the
    metadata carries the policy in [L] in every case. *)
Theorem long_field_resolved_by_configured_default :
  forall (W : Type) (this : MessageClassGenerator W) source descField
         fieldInfo T L override w,
    FieldInfo.kind fieldInfo = FieldInfo.scalar T L ->
    ScalarType.is_long T = true ->
    L = interpretedL (normalLongType (options this)) override \/
    L = Some (effectiveLongType (normalLongType (options this)) override) ->
    createTypeNode this source descField fieldInfo w
    = (inr (let type :=
              Some (longTypeNode
                      (match override with
                       | Some policy => policy
                       | None => normalLongType (options this)
                       end)) in
            if FieldInfo.repeat fieldInfo
            then Some (ts.createArrayTypeNode type) else type), w).
Proof.
  intros W this source descField fieldInfo T L override w HK HT HL.
  rewrite (long_field_resolved_by_field_policy this _ _ _ _ _ _ HK HT).
  assert (Hpolicy : nullish L LongType.STRING
                    = effectiveLongType (normalLongType (options this))
                        override).
  { destruct HL as [-> | ->]; [apply interpretedL_policy | reflexivity]. }
  rewrite Hpolicy. destruct (FieldInfo.repeat fieldInfo); reflexivity.
Qed.

(** The field [area] of [Shape], uint64, under the native-number
    configuration: without override it is the number type, and with the
    override to the textual form, for which [L] is absent, the string
    type. *)
Lemma long_field_resolved_by_configured_default_area :
  createTypeNode numberGenerator Shape.source (Shape.plainField 2 "area")
    (Shape.fieldInfo 2 "area"
       (FieldInfo.scalar ScalarType.UINT64
          (interpretedL LongType.NUMBER None)) None)
    Shape.emptyWorld
  = (inr (Some (ts.createKeywordTypeNode ts.SyntaxKind.NumberKeyword)),
     Shape.emptyWorld) /\
  createTypeNode numberGenerator Shape.source (Shape.plainField 2 "area")
    (Shape.fieldInfo 2 "area"
       (FieldInfo.scalar ScalarType.UINT64
          (interpretedL LongType.NUMBER (Some LongType.STRING))) None)
    Shape.emptyWorld
  = (inr (Some (ts.createKeywordTypeNode ts.SyntaxKind.StringKeyword)),
     Shape.emptyWorld).
Proof.
  split.
  - exact (long_field_resolved_by_configured_default Shape.World
             numberGenerator Shape.source (Shape.plainField 2 "area")
             (Shape.fieldInfo 2 "area"
                (FieldInfo.scalar ScalarType.UINT64
                   (interpretedL LongType.NUMBER None)) None)
             ScalarType.UINT64 (interpretedL LongType.NUMBER None) None
             Shape.emptyWorld eq_refl eq_refl (or_introl eq_refl)).
  - exact (long_field_resolved_by_configured_default Shape.World
             numberGenerator Shape.source (Shape.plainField 2 "area")
             (Shape.fieldInfo 2 "area"
                (FieldInfo.scalar ScalarType.UINT64
                   (interpretedL LongType.NUMBER (Some LongType.STRING)))
                None)
             ScalarType.UINT64
             (interpretedL LongType.NUMBER (Some LongType.STRING))
             (Some LongType.STRING)
             Shape.emptyWorld eq_refl eq_refl (or_introl eq_refl)).
Defined.

(** ** Map fields *)

Lemma createMapValueTypeNode_returns {W : Type}
    (this : MessageClassGenerator W) source V w :
  exists valueType w',
    createMapValueTypeNode this source V w = (inr valueType, w').
Proof.
  destruct V as [T L | T | T |]; simpl.
  - eexists; eexists; reflexivity.
  - unfold createEnumTypeNode, bind. rewrite call_run. eexists; eexists; reflexivity.
  - unfold createMessageTypeNode, bind. rewrite call_run. eexists; eexists; reflexivity.
  - eexists; eexists; reflexivity.
Qed.

(** The resolver on a map field. *)
Lemma createTypeNode_map {W : Type} (this : MessageClassGenerator W)
    source descField fieldInfo K V w valueType w' :
  FieldInfo.kind fieldInfo = FieldInfo.map K V ->
  createMapValueTypeNode this source V w = (inr valueType, w') ->
  createTypeNode this source descField fieldInfo w
  = (inr (let type :=
            Some (ts.createTypeLiteralNode
                    [ts.createIndexSignature
                       [ts.createParameter None "key" false
                          (if ScalarType.eqb K ScalarType.BOOL
                           then Some (ts.createKeywordTypeNode
                                        ts.SyntaxKind.StringKeyword)
                           else createScalarTypeNode K (Some LongType.STRING))]
                       valueType]) in
          if FieldInfo.repeat fieldInfo
          then Some (ts.createArrayTypeNode type) else type), w').
Proof.
  intros HK HV. unfold createTypeNode. rewrite HK.
  unfold bind. rewrite HV. reflexivity.
Qed.

(** C4: the key of a map field is the string type for a boolean key, and
    for every other key kind it is the scalar type resolved with the long
    type fixed to [STRING], whatever the generator's options are; a
    width-64 integer key therefore resolves to the string type. *)
Theorem map_key_resolved_as_string_policy :
  forall (W : Type) (this : MessageClassGenerator W) source descField
         fieldInfo K V w,
    FieldInfo.kind fieldInfo = FieldInfo.map K V ->
    exists keyType valueType w',
      createTypeNode this source descField fieldInfo w
      = (inr (let type :=
                Some (ts.createTypeLiteralNode
                        [ts.createIndexSignature
                           [ts.createParameter None "key" false keyType]
                           valueType]) in
              if FieldInfo.repeat fieldInfo
              then Some (ts.createArrayTypeNode type) else type), w') /\
      (K = ScalarType.BOOL ->
       keyType = Some (ts.createKeywordTypeNode ts.SyntaxKind.StringKeyword)) /\
      (K <> ScalarType.BOOL ->
       keyType = createScalarTypeNode K (Some LongType.STRING)) /\
      (ScalarType.is_long K = true ->
       keyType = Some (ts.createKeywordTypeNode ts.SyntaxKind.StringKeyword)).
Proof.
  intros W this source descField fieldInfo K V w HK.
  destruct (createMapValueTypeNode_returns this source V w)
    as (valueType & w' & HV).
  eexists; exists valueType, w'. split.
  - exact (createTypeNode_map this _ _ _ _ _ _ _ _ HK HV).
  - repeat split.
    + intros ->. reflexivity.
    + intros HB. unfold ScalarType.eqb.
      destruct (ScalarType.eq_dec K ScalarType.BOOL); [contradiction | reflexivity].
    + intros HL. destruct K; try discriminate HL; reflexivity.
Qed.

(** A map from int64 to int64 values of native-number representation, under
    the native-number configuration: the key is the string type. *)
Lemma map_key_resolved_as_string_policy_int64 :
  exists keyType valueType w',
    createTypeNode numberGenerator Shape.source (Shape.plainField 2 "area")
      (Shape.fieldInfo 2 "area"
         (FieldInfo.map ScalarType.INT64
            (FieldInfo.V_scalar ScalarType.INT64 (Some LongType.NUMBER)))
         None)
      Shape.emptyWorld
    = (inr (Some (ts.createTypeLiteralNode
                    [ts.createIndexSignature
                       [ts.createParameter None "key" false keyType]
                       valueType])), w') /\
    (ScalarType.INT64 = ScalarType.BOOL ->
     keyType = Some (ts.createKeywordTypeNode ts.SyntaxKind.StringKeyword)) /\
    (ScalarType.INT64 <> ScalarType.BOOL ->
     keyType = createScalarTypeNode ScalarType.INT64 (Some LongType.STRING)) /\
    (ScalarType.is_long ScalarType.INT64 = true ->
     keyType = Some (ts.createKeywordTypeNode ts.SyntaxKind.StringKeyword)).
Proof.
  exact (map_key_resolved_as_string_policy Shape.World numberGenerator
           Shape.source (Shape.plainField 2 "area")
           (Shape.fieldInfo 2 "area"
              (FieldInfo.map ScalarType.INT64
                 (FieldInfo.V_scalar ScalarType.INT64 (Some LongType.NUMBER)))
              None)
           ScalarType.INT64
           (FieldInfo.V_scalar ScalarType.INT64 (Some LongType.NUMBER))
           Shape.emptyWorld eq_refl).
Defined.

(** C10: a map field whose value kind is none of scalar, enum and message
    does not throw: the index signature is built with no value type, and
    no collaborator is called. *)
Theorem map_with_unknown_value_kind_returns :
  forall (W : Type) (this : MessageClassGenerator W) source descField
         fieldInfo K w,
    FieldInfo.kind fieldInfo = FieldInfo.map K FieldInfo.V_unknown ->
    exists keyType,
      createTypeNode this source descField fieldInfo w
      = (inr (let type :=
                Some (ts.createTypeLiteralNode
                        [ts.createIndexSignature
                           [ts.createParameter None "key" false keyType]
                           None]) in
              if FieldInfo.repeat fieldInfo
              then Some (ts.createArrayTypeNode type) else type), w).
Proof.
  intros W this source descField fieldInfo K w HK.
  eexists. apply (createTypeNode_map this _ _ _ _ _ _ _ _ HK). reflexivity.
Qed.

(** A map from strings to values of an undeclared kind. *)
Lemma map_with_unknown_value_kind_returns_example :
  exists keyType,
    createTypeNode Shape.this Shape.source (Shape.plainField 2 "area")
      (Shape.fieldInfo 2 "area"
         (FieldInfo.map ScalarType.STRING FieldInfo.V_unknown) None)
      Shape.emptyWorld
    = (inr (Some (ts.createTypeLiteralNode
                    [ts.createIndexSignature
                       [ts.createParameter None "key" false keyType]
                       None])), Shape.emptyWorld).
Proof.
  exact (map_with_unknown_value_kind_returns Shape.World Shape.this
           Shape.source (Shape.plainField 2 "area")
           (Shape.fieldInfo 2 "area"
              (FieldInfo.map ScalarType.STRING FieldInfo.V_unknown) None)
           ScalarType.STRING Shape.emptyWorld eq_refl).
Defined.

(** ** Errors *)

Lemma createTypeNode_unknown {W : Type} (this : MessageClassGenerator W)
    source descField fieldInfo w :
  FieldInfo.kind fieldInfo = FieldInfo.unknown ->
  createTypeNode this source descField fieldInfo w
  = (inl (Error (String.append "unknown kind " (DescField_toString descField))),
     w).
Proof. intros H. unfold createTypeNode. rewrite H. reflexivity. Qed.

(** The loop body on a field that is not treated as a group member. *)
Lemma fieldStep_regular {W : Type} (this : MessageClassGenerator W)
    source descMessage fieldInfo st descField w :
  findByNumber (DescMessage_fields descMessage) (FieldInfo.no fieldInfo)
  = Some descField ->
  truthy (FieldInfo.oneof fieldInfo) = None \/ DescField_oneof descField = None ->
  fieldStep this source descMessage fieldInfo st w
  = bind (createTypeNode this source descField fieldInfo)
      (fun type =>
         let param :=
           ts.createParameter publicReadonly (FieldInfo.localName fieldInfo)
             (FieldInfo.opt fieldInfo) type in
         call (addCommentsForDescriptor (comments this) (ParameterNode param)
                 (OfField descField) "trailingLines") ;;
         ret {| processedOneofs := processedOneofs st;
                ctorParams := ctorParams st ++ [param] |}) w.
Proof.
  intros Hfind Hreg. unfold fieldStep.
  rewrite Hfind, bind_assert_Some.
  destruct Hreg as [H | H]; rewrite H.
  - reflexivity.
  - destruct (truthy (FieldInfo.oneof fieldInfo)); reflexivity.
Qed.

(** An exception thrown in the loop leaves [generateMessageClass]. *)
Lemma generateMessageClass_throws {W : Type} (this : MessageClassGenerator W)
    source descMessage pre fieldInfo post st w w1 e w2 :
  fields (getMessageType (interpreter this)
            (inl (DescMessage_typeName descMessage)))
  = pre ++ fieldInfo :: post ->
  forOf pre (fieldStep this source descMessage)
    {| processedOneofs := []; ctorParams := [] |} w = (inr st, w1) ->
  fieldStep this source descMessage fieldInfo st w1 = (inl e, w2) ->
  generateMessageClass this source descMessage w = (inl e, w2).
Proof.
  intros Hfields Hpre Hstep. unfold generateMessageClass.
  apply bind_inl. rewrite Hfields.
  exact (forOf_throws _ _ _ _ _ _ _ _ _ _ Hpre Hstep).
Qed.

Lemma fieldStep_missing {W : Type} (this : MessageClassGenerator W)
    source descMessage fieldInfo st w :
  field_missing_in_descriptor descMessage fieldInfo ->
  fieldStep this source descMessage fieldInfo st w = (inl AssertionError, w).
Proof.
  unfold field_missing_in_descriptor. intros H.
  unfold fieldStep. rewrite H. apply bind_assert_None.
Qed.

Lemma fieldStep_violation {W : Type} (this : MessageClassGenerator W)
    source descMessage fieldInfo st w :
  contract_violation this descMessage (processedOneofs st) fieldInfo ->
  fieldStep this source descMessage fieldInfo st w = (inl AssertionError, w).
Proof.
  intros [Hmiss | Hgroup].
  - apply fieldStep_missing. exact Hmiss.
  - destruct Hgroup
      as (descField & g & descOneof & sampleField & rest
          & Hfind & Hg & Ho & Hincl & Hsample & Hinfo).
    unfold fieldStep. rewrite Hfind, bind_assert_Some, Hg, Ho, Hincl.
    apply bind_inl. unfold oneofInfo. rewrite Hsample.
    destruct (find _ _) as [sampleFieldInfo |].
    + rewrite bind_assert_Some, Hinfo. apply bind_assert_None.
    + apply bind_assert_None.
Qed.

(** C2, as stated, fails: the only field of [Lone] is the sample member of
    a oneof in the descriptor and has no group name in the metadata; the
    class is generated all the same, the field a regular parameter. *)
Lemma lone_member_emitted_as_regular_field :
  In (Build_DescField 1 "field Lone.only" (Some loneGroup))
     (DescMessage_fields loneMessage) /\
  sample_member_without_group loneGenerator loneGroup /\
  generateMessageClass loneGenerator Shape.source loneMessage Shape.emptyWorld
  = (inr (ts.createClassDeclaration [ts.SyntaxKind.ExportKeyword] "LoneCtor"
            [ts.createConstructor
               [ts.createParameter publicReadonly "only" false
                  (Some (ts.createKeywordTypeNode
                           ts.SyntaxKind.NumberKeyword))]]),
     {| Shape.statements :=
          [ts.createClassDeclaration [ts.SyntaxKind.ExportKeyword] "LoneCtor"
             [ts.createConstructor
                [ts.createParameter publicReadonly "only" false
                   (Some (ts.createKeywordTypeNode
                            ts.SyntaxKind.NumberKeyword))]]];
        Shape.imported := [];
        Shape.commented := 2 |}) /\
  ~ disagreement_always_fatal.
Proof.
  assert (Hsample : sample_member_without_group loneGenerator loneGroup).
  { exists (Build_DescField 1 "field Lone.only" None), [], loneInfo.
    repeat split. }
  split; [left; reflexivity | split; [exact Hsample | split]].
  - reflexivity.
  - intros H.
    destruct (H Shape.World loneGenerator Shape.source loneMessage
                Shape.emptyWorld) as (e & w' & He).
    + right. exists (Build_DescField 1 "field Lone.only" (Some loneGroup)),
        loneGroup.
      split; [left; reflexivity | split; [reflexivity | exact Hsample]].
    + discriminate He.
Qed.

(** C2, amended: the generation of a message throws, and returns no class
    declaration, whenever its metadata has a field with no schema field of
    that number; and when the fields before it are processed without
    error, the generation stops at the field where the loop meets a
    contract violation (such a field, or a field of a group not yet
    processed whose sample member is absent from the metadata or has no
    group name there) with the assertion failure, in the state the loop
    had reached: no later field is processed and no class declaration is
    built. *)
Theorem contract_violation_aborts_generation :
  forall (W : Type) (this : MessageClassGenerator W) source descMessage w,
    (forall fieldInfo,
        In fieldInfo
           (fields (getMessageType (interpreter this)
                      (inl (DescMessage_typeName descMessage)))) ->
        field_missing_in_descriptor descMessage fieldInfo ->
        exists e w',
          generateMessageClass this source descMessage w = (inl e, w')) /\
    (forall pre fieldInfo post st w1,
        fields (getMessageType (interpreter this)
                  (inl (DescMessage_typeName descMessage)))
        = pre ++ fieldInfo :: post ->
        forOf pre (fieldStep this source descMessage)
          {| processedOneofs := []; ctorParams := [] |} w = (inr st, w1) ->
        contract_violation this descMessage (processedOneofs st) fieldInfo ->
        generateMessageClass this source descMessage w
        = (inl AssertionError, w1)).
Proof.
  intros W this source descMessage w. split.
  - intros fieldInfo Hin Hmiss.
    destruct (in_split _ _ Hin) as (pre & post & Hfields).
    destruct (run_cases
                (forOf pre (fieldStep this source descMessage)
                   {| processedOneofs := []; ctorParams := [] |}) w)
      as [(e & w' & Hpre) | (st & w' & Hpre)].
    + exists e, w'. unfold generateMessageClass. apply bind_inl.
      rewrite Hfields, forOf_app. apply bind_inl. exact Hpre.
    + exists AssertionError, w'.
      apply (generateMessageClass_throws this source descMessage pre fieldInfo
               post st w w' _ _ Hfields Hpre).
      apply fieldStep_missing. exact Hmiss.
  - intros pre fieldInfo post st w1 Hfields Hpre Hviol.
    apply (generateMessageClass_throws this source descMessage pre fieldInfo
             post st w w1 _ _ Hfields Hpre).
    apply fieldStep_violation. exact Hviol.
Qed.

(** The two violations on [Shape]: a fifth metadata field without schema
    field, met after the four fields are processed; and the group
    [selector] whose sample member [label] has no group name, met at
    [anchor] after [label] went through as a regular field. *)
Lemma contract_violation_aborts_generation_Shape :
  generateMessageClass strayGenerator Shape.source Shape.descMessage
    Shape.emptyWorld
  = (inl AssertionError,
     {| Shape.statements := []; Shape.imported := ["Point"];
        Shape.commented := 3 |}) /\
  generateMessageClass ungroupedSampleGenerator Shape.source Shape.descMessage
    Shape.emptyWorld
  = (inl AssertionError,
     {| Shape.statements := []; Shape.imported := [];
        Shape.commented := 3 |}).
Proof.
  split.
  - apply (proj2 (contract_violation_aborts_generation Shape.World
                    strayGenerator Shape.source Shape.descMessage
                    Shape.emptyWorld)
             (fields Shape.messageType) strayInfo []
             {| processedOneofs := ["selector"];
                ctorParams := Shape.expectedParams |}).
    + reflexivity.
    + reflexivity.
    + left. reflexivity.
  - apply (proj2 (contract_violation_aborts_generation Shape.World
                    ungroupedSampleGenerator Shape.source Shape.descMessage
                    Shape.emptyWorld)
             [Shape.fieldInfo 1 "width"
                (FieldInfo.scalar ScalarType.INT32 None) None;
              Shape.fieldInfo 2 "area"
                (FieldInfo.scalar ScalarType.UINT64 None) None;
              Shape.fieldInfo 3 "label"
                (FieldInfo.scalar ScalarType.STRING None) None]
             (Shape.fieldInfo 4 "anchor" (FieldInfo.message "Point")
                (Some "selector"))
             []
             {| processedOneofs := [];
                ctorParams :=
                  [ts.createParameter publicReadonly "width" false
                     (Some (ts.createKeywordTypeNode
                              ts.SyntaxKind.NumberKeyword));
                   ts.createParameter publicReadonly "area" false
                     (Some (ts.createKeywordTypeNode
                              ts.SyntaxKind.StringKeyword));
                   ts.createParameter publicReadonly "label" false
                     (Some (ts.createKeywordTypeNode
                              ts.SyntaxKind.StringKeyword))] |}).
    + reflexivity.
    + reflexivity.
    + right.
      exists (Shape.memberField 4 "anchor"), "selector", Shape.selector,
        (Shape.plainField 3 "label"), [Shape.plainField 4 "anchor"].
      repeat split.
Defined.

(** ** The union type of a oneof group *)

Lemma createTypeNode_returns {W : Type} (this : MessageClassGenerator W)
    source descField fieldInfo w :
  FieldInfo.kind fieldInfo <> FieldInfo.unknown ->
  exists typeNode w',
    createTypeNode this source descField fieldInfo w = (inr typeNode, w').
Proof.
  intros HK. destruct (FieldInfo.kind fieldInfo) as [T L | T | T | K V |] eqn:E.
  - rewrite (createTypeNode_scalar this _ _ _ _ _ _ E). eauto.
  - unfold createTypeNode. rewrite E.
    unfold bind, createEnumTypeNode, bind. rewrite call_run. simpl.
    eexists; eexists; reflexivity.
  - unfold createTypeNode. rewrite E.
    unfold bind, createMessageTypeNode, bind. rewrite call_run. simpl.
    eexists; eexists; reflexivity.
  - destruct (createMapValueTypeNode_returns this source V w)
      as (valueType & w' & HV).
    rewrite (createTypeNode_map this _ _ _ _ _ _ _ _ E HV). eauto.
  - contradiction.
Qed.

Lemma oneofInfo_returns {W : Type} (this : MessageClassGenerator W)
    descOneof sampleField rest sampleFieldInfo oneofName w :
  DescOneof_fields descOneof = sampleField :: rest ->
  find (fun fi => Z.eqb (FieldInfo.no fi) (DescField_number sampleField))
       (fields (getMessageType (interpreter this)
                  (inr (DescOneof_parent descOneof))))
  = Some sampleFieldInfo ->
  FieldInfo.oneof sampleFieldInfo = Some oneofName ->
  oneofInfo this descOneof w
  = (inr (DescOneof_parent descOneof,
          getMessageType (interpreter this) (inr (DescOneof_parent descOneof)),
          oneofName), w).
Proof.
  intros Hs Hf Ho. unfold oneofInfo.
  rewrite Hs, Hf, bind_assert_Some, Ho, bind_assert_Some. reflexivity.
Qed.

(** The loop over the members appends one case per member, in order. *)
Lemma oneofCases_loop {W : Type} (this : MessageClassGenerator W)
    source parentMessageDesc members :
  (forall fi, In fi members ->
     findByNumber (DescMessage_fields parentMessageDesc) (FieldInfo.no fi)
     <> None /\
     FieldInfo.kind fi <> FieldInfo.unknown) ->
  forall oneofCases w,
  exists cases w',
    forOf members (oneofCaseStep this source parentMessageDesc) oneofCases w
    = (inr (oneofCases ++ cases), w') /\
    Forall2 (is_member_case this source parentMessageDesc) members cases.
Proof.
  induction members as [| fi members IH]; intros Hok oneofCases w.
  - exists [], w. split; [simpl; rewrite app_nil_r; reflexivity | constructor].
  - destruct (Hok fi (or_introl eq_refl)) as [Hfind HK].
    destruct (findByNumber (DescMessage_fields parentMessageDesc)
                (FieldInfo.no fi)) as [descField |] eqn:Ed;
      [clear Hfind | contradiction].
    destruct (createTypeNode_returns this source descField fi w HK)
      as (typeNode & w1 & HT).
    destruct (IH (fun x Hx => Hok x (or_intror Hx))
                (oneofCases ++
                 [ts.createTypeLiteralNode
                    [ts.createPropertySignature
                       (oneofKindDiscriminator (options this)) false
                       (Some (ts.createLiteralTypeNode (FieldInfo.localName fi)));
                     ts.createPropertySignature (FieldInfo.localName fi)
                       (FieldInfo.opt fi) typeNode]]) w1)
      as (cases & w' & Hloop & Hall).
    eexists (_ :: cases), w'. split.
    + simpl. unfold bind at 1. unfold oneofCaseStep at 1.
      rewrite Ed, bind_assert_Some. unfold bind at 1. rewrite HT.
      unfold ret at 1. rewrite Hloop, <- app_assoc. reflexivity.
    + constructor; [| exact Hall].
      exists descField, typeNode, w, w1. repeat split; assumption.
Qed.

(** The union type built for a group whose sample member and members are
    well-formed. *)
Lemma createOneofADTTypeNode_returns {W : Type}
    (this : MessageClassGenerator W) source descOneof sampleField rest
    sampleFieldInfo oneofName w :
  DescOneof_fields descOneof = sampleField :: rest ->
  find (fun fi => Z.eqb (FieldInfo.no fi) (DescField_number sampleField))
       (fields (getMessageType (interpreter this)
                  (inr (DescOneof_parent descOneof))))
  = Some sampleFieldInfo ->
  FieldInfo.oneof sampleFieldInfo = Some oneofName ->
  (forall fi, In fi (memberFieldInfos this descOneof oneofName) ->
     findByNumber (DescMessage_fields (DescOneof_parent descOneof))
       (FieldInfo.no fi) <> None /\
     FieldInfo.kind fi <> FieldInfo.unknown) ->
  exists cases w',
    createOneofADTTypeNode this source descOneof w
    = (inr (ts.createUnionTypeNode
              (cases ++
               [ts.createTypeLiteralNode
                  [ts.createPropertySignature
                     (oneofKindDiscriminator (options this)) false
                     (Some (ts.createKeywordTypeNode
                              ts.SyntaxKind.UndefinedKeyword))]])), w') /\
    Forall2 (is_member_case this source (DescOneof_parent descOneof))
      (memberFieldInfos this descOneof oneofName) cases.
Proof.
  intros Hs Hf Ho Hok.
  destruct (oneofCases_loop this source (DescOneof_parent descOneof)
              (memberFieldInfos this descOneof oneofName) Hok [] w)
    as (cases & w' & Hloop & Hall).
  exists cases, w'. split.
  - unfold createOneofADTTypeNode.
    rewrite (bind_inr _ _ _ _ _
               (oneofInfo_returns this _ _ _ _ _ w Hs Hf Ho)).
    fold (memberFieldInfos this descOneof oneofName).
    rewrite (bind_inr _ _ _ _ _ Hloop). reflexivity.
  - exact Hall.
Qed.

(** C3: for a group with N members the union has N+1 cases: one case per
    member in the order of the members, a type literal of exactly two
    properties (the discriminator typed by the literal of the member's
    local name, and the member's local name typed by the resolver, with
    the question token exactly when the member is optional), and last the
    case whose only property is the discriminator typed [undefined]. *)
Theorem oneof_union_has_member_cases_then_empty_case :
  forall (W : Type) (this : MessageClassGenerator W) source descOneof
         sampleField rest sampleFieldInfo oneofName w,
    DescOneof_fields descOneof = sampleField :: rest ->
    find (fun fi => Z.eqb (FieldInfo.no fi) (DescField_number sampleField))
         (fields (getMessageType (interpreter this)
                    (inr (DescOneof_parent descOneof))))
    = Some sampleFieldInfo ->
    FieldInfo.oneof sampleFieldInfo = Some oneofName ->
    (forall fi, In fi (memberFieldInfos this descOneof oneofName) ->
       findByNumber (DescMessage_fields (DescOneof_parent descOneof))
         (FieldInfo.no fi) <> None /\
       FieldInfo.kind fi <> FieldInfo.unknown) ->
    exists cases w',
      createOneofADTTypeNode this source descOneof w
      = (inr (ts.createUnionTypeNode
                (cases ++
                 [ts.createTypeLiteralNode
                    [ts.createPropertySignature
                       (oneofKindDiscriminator (options this)) false
                       (Some (ts.createKeywordTypeNode
                                ts.SyntaxKind.UndefinedKeyword))]])), w') /\
      Forall2 (is_member_case this source (DescOneof_parent descOneof))
        (memberFieldInfos this descOneof oneofName) cases /\
      List.length
        (cases ++
         [ts.createTypeLiteralNode
            [ts.createPropertySignature
               (oneofKindDiscriminator (options this)) false
               (Some (ts.createKeywordTypeNode
                        ts.SyntaxKind.UndefinedKeyword))]])
      = S (List.length (memberFieldInfos this descOneof oneofName)).
Proof.
  intros W this source descOneof sampleField rest sampleFieldInfo oneofName w
         Hs Hf Ho Hok.
  destruct (createOneofADTTypeNode_returns this source descOneof sampleField
              rest sampleFieldInfo oneofName w Hs Hf Ho Hok)
    as (cases & w' & Hrun & Hall).
  exists cases, w'. split; [exact Hrun | split; [exact Hall |]].
  rewrite length_app, (Forall2_length Hall). simpl. lia.
Qed.

(** The group [selector] of [Shape]: two members, three cases. *)
Lemma oneof_union_has_member_cases_then_empty_case_selector :
  exists cases w',
    createOneofADTTypeNode Shape.this Shape.source Shape.selector
      Shape.emptyWorld
    = (inr (ts.createUnionTypeNode
              (cases ++
               [ts.createTypeLiteralNode
                  [ts.createPropertySignature "kind" false
                     (Some (ts.createKeywordTypeNode
                              ts.SyntaxKind.UndefinedKeyword))]])), w') /\
    Forall2 (is_member_case Shape.this Shape.source Shape.parentMessage)
      [Shape.fieldInfo 3 "label" (FieldInfo.scalar ScalarType.STRING None)
         (Some "selector");
       Shape.fieldInfo 4 "anchor" (FieldInfo.message "Point")
         (Some "selector")]
      cases /\
    List.length
      (cases ++
       [ts.createTypeLiteralNode
          [ts.createPropertySignature "kind" false
             (Some (ts.createKeywordTypeNode
                      ts.SyntaxKind.UndefinedKeyword))]])
    = 3.
Proof.
  apply (oneof_union_has_member_cases_then_empty_case Shape.World Shape.this
           Shape.source Shape.selector (Shape.plainField 3 "label")
           [Shape.plainField 4 "anchor"]
           (Shape.fieldInfo 3 "label" (FieldInfo.scalar ScalarType.STRING None)
              (Some "selector"))
           "selector" Shape.emptyWorld eq_refl eq_refl eq_refl).
  intros fi [<- | [<- | []]]; split; discriminate.
Defined.

(** ** The loop over the fields *)

Lemma bind_returns {W A B : Type} (m : M W A) (k : A -> M W B) w b w' :
  bind m k w = (inr b, w') ->
  exists a w1, m w = (inr a, w1) /\ k a w1 = (inr b, w').
Proof.
  unfold bind. destruct (m w) as [[e | a] w1]; intros H.
  - discriminate H.
  - exists a, w1. split; [reflexivity | exact H].
Qed.

(** [oneofInfo] calls no collaborator. *)
Lemma oneofInfo_state {W : Type} (this : MessageClassGenerator W) descOneof w :
  snd (oneofInfo this descOneof w) = w.
Proof.
  unfold oneofInfo. destruct (DescOneof_fields descOneof) as [| sampleField rest].
  - destruct (fields _); reflexivity.
  - destruct (find _ _) as [sampleFieldInfo |]; [| reflexivity].
    rewrite bind_assert_Some.
    destruct (FieldInfo.oneof sampleFieldInfo); reflexivity.
Qed.

Lemma includes_app (processed : list string) (g g' : string) :
  includes (processed ++ [g']) g = includes processed g || String.eqb g g'.
Proof.
  unfold includes. rewrite existsb_app. simpl. rewrite orb_false_r. reflexivity.
Qed.

(** Among the emitting fields a group occurs once if it was not processed
    before and some field belongs to it, and not at all otherwise. *)
Lemma emitting_count (descMessage : DescMessage) (g : string) fieldInfos :
  forall processed,
    List.length (filter (inGroup descMessage g)
                   (emitting descMessage processed fieldInfos))
    = if includes processed g then 0
      else if existsb (inGroup descMessage g) fieldInfos then 1 else 0.
Proof.
  induction fieldInfos as [| fi rest IH]; intros processed; simpl.
  - destruct (includes processed g); reflexivity.
  - unfold inGroup at 2.
    destruct (groupOf descMessage fi) as [[g' o] |] eqn:Eg.
    + destruct (includes processed g') eqn:Ei.
      * rewrite IH. destruct (includes processed g) eqn:Eig; [reflexivity |].
        destruct (String.eqb g' g) eqn:Eq; [| reflexivity].
        apply String.eqb_eq in Eq. subst g'. congruence.
      * simpl. unfold inGroup at 1. rewrite Eg.
        destruct (String.eqb g' g) eqn:Eq.
        -- apply String.eqb_eq in Eq. subst g'. simpl.
           rewrite IH, includes_app, String.eqb_refl, orb_true_r, Ei.
           reflexivity.
        -- rewrite IH, includes_app, String.eqb_sym, Eq, orb_false_r.
           reflexivity.
    + simpl. unfold inGroup at 1. rewrite Eg. apply IH.
Qed.

(** What one successful iteration does. *)
Lemma fieldStep_returns {W : Type} (this : MessageClassGenerator W)
    source descMessage fieldInfo st w st1 w1 :
  fieldStep this source descMessage fieldInfo st w = (inr st1, w1) ->
  match groupOf descMessage fieldInfo with
  | Some (g, _) =>
      if includes (processedOneofs st) g then st1 = st /\ w1 = w
      else exists param,
          emitted_for this source descMessage fieldInfo param /\
          st1 = {| processedOneofs := processedOneofs st ++ [g];
                   ctorParams := ctorParams st ++ [param] |}
  | None =>
      exists param,
        emitted_for this source descMessage fieldInfo param /\
        st1 = {| processedOneofs := processedOneofs st;
                 ctorParams := ctorParams st ++ [param] |}
  end.
Proof.
  intros H. unfold emitted_for, groupOf. unfold fieldStep in H.
  destruct (findByNumber (DescMessage_fields descMessage)
              (FieldInfo.no fieldInfo)) as [descField |] eqn:Ed.
  2: { rewrite bind_assert_None in H. discriminate H. }
  rewrite bind_assert_Some in H.
  assert (Hregular :
            bind (createTypeNode this source descField fieldInfo)
              (fun type =>
                 let param :=
                   ts.createParameter publicReadonly
                     (FieldInfo.localName fieldInfo) (FieldInfo.opt fieldInfo)
                     type in
                 call (addCommentsForDescriptor (comments this)
                         (ParameterNode param) (OfField descField)
                         "trailingLines") ;;
                 ret {| processedOneofs := processedOneofs st;
                        ctorParams := ctorParams st ++ [param] |}) w
            = (inr st1, w1) ->
            exists param,
              (exists descField0 type w2 w3,
                  Some descField = Some descField0 /\
                  createTypeNode this source descField0 fieldInfo w2
                  = (inr type, w3) /\
                  param = ts.createParameter publicReadonly
                            (FieldInfo.localName fieldInfo)
                            (FieldInfo.opt fieldInfo) type) /\
              st1 = {| processedOneofs := processedOneofs st;
                       ctorParams := ctorParams st ++ [param] |}).
  { intros Hr. apply bind_returns in Hr. destruct Hr as (type & w2 & HT & Hr).
    cbv zeta in Hr. apply bind_returns in Hr.
    destruct Hr as (u & w3 & _ & Hr). injection Hr as <- _.
    eexists. split; [| reflexivity].
    exists descField, type, w, w2. repeat split. exact HT. }
  destruct (truthy (FieldInfo.oneof fieldInfo)) as [g |];
    [| exact (Hregular H)].
  destruct (DescField_oneof descField) as [descOneof |];
    [| exact (Hregular H)].
  clear Hregular.
  destruct (includes (processedOneofs st) g).
  - unfold ret in H. injection H as H1 H2. subst st1 w1. split; reflexivity.
  - apply bind_returns in H.
    destruct H as ([[parent interpreterType] oneofLocalName] & w2 & HI & H).
    apply bind_returns in H. destruct H as (oneofType & w3 & HU & H).
    cbv zeta in H. apply bind_returns in H.
    destruct H as (u & w4 & _ & H). injection H as <- _.
    eexists. split; [| reflexivity].
    pose proof (oneofInfo_state this descOneof w) as Hs.
    rewrite HI in Hs. simpl in Hs. subst w2.
    exists parent, interpreterType, oneofLocalName, oneofType, w, w, w3.
    repeat split; assumption.
Qed.

(** The parameters a successful loop appends are those of the emitting
    fields, in order. *)
Lemma fieldLoop_emits {W : Type} (this : MessageClassGenerator W)
    source descMessage fieldInfos :
  forall st w st' w',
    forOf fieldInfos (fieldStep this source descMessage) st w = (inr st', w') ->
    exists params,
      ctorParams st' = ctorParams st ++ params /\
      Forall2 (emitted_for this source descMessage)
        (emitting descMessage (processedOneofs st) fieldInfos) params.
Proof.
  induction fieldInfos as [| fi rest IH]; intros st w st' w' H; simpl in H.
  - injection H as <- _. exists []. rewrite app_nil_r. split; constructor.
  - apply bind_returns in H. destruct H as (st1 & w1 & Hstep & Hrest).
    apply fieldStep_returns in Hstep. apply IH in Hrest.
    destruct Hrest as (params & Hparams & Hall). simpl.
    destruct (groupOf descMessage fi) as [[g o] |] eqn:Eg.
    + destruct (includes (processedOneofs st) g).
      * destruct Hstep as [-> ->]. exists params. split; assumption.
      * destruct Hstep as (param & Hparam & ->). simpl in *.
        exists (param :: params). split.
        -- rewrite Hparams, <- app_assoc. reflexivity.
        -- constructor; assumption.
    + destruct Hstep as (param & Hparam & ->). simpl in *.
      exists (param :: params). split.
      * rewrite Hparams, <- app_assoc. reflexivity.
      * constructor; assumption.
Qed.

(** On well-formed metadata an iteration returns. *)
Lemma fieldStep_well_formed {W : Type} (this : MessageClassGenerator W)
    source descMessage fieldInfo st w :
  well_formed_field this descMessage fieldInfo ->
  exists st' w',
    fieldStep this source descMessage fieldInfo st w = (inr st', w').
Proof.
  intros [Hfind Hwf]. unfold groupOf in Hwf. unfold fieldStep.
  destruct (findByNumber (DescMessage_fields descMessage)
              (FieldInfo.no fieldInfo)) as [descField |];
    [clear Hfind | contradiction].
  rewrite bind_assert_Some.
  assert (Hregular :
            FieldInfo.kind fieldInfo <> FieldInfo.unknown ->
            exists st' w',
              bind (createTypeNode this source descField fieldInfo)
                (fun type =>
                   let param :=
                     ts.createParameter publicReadonly
                       (FieldInfo.localName fieldInfo)
                       (FieldInfo.opt fieldInfo) type in
                   call (addCommentsForDescriptor (comments this)
                           (ParameterNode param) (OfField descField)
                           "trailingLines") ;;
                   ret {| processedOneofs := processedOneofs st;
                          ctorParams := ctorParams st ++ [param] |}) w
              = (inr st', w')).
  { intros HK.
    destruct (createTypeNode_returns this source descField fieldInfo w HK)
      as (type & w1 & HT).
    rewrite (bind_inr _ _ _ _ _ HT). cbv zeta.
    unfold bind. rewrite call_run. eexists; eexists; reflexivity. }
  destruct (truthy (FieldInfo.oneof fieldInfo)) as [g |];
    [| exact (Hregular Hwf)].
  destruct (DescField_oneof descField) as [descOneof |];
    [| exact (Hregular Hwf)].
  clear Hregular.
  destruct (includes (processedOneofs st) g).
  - eexists; eexists; reflexivity.
  - destruct Hwf
      as (sampleField & rest & sampleFieldInfo & oneofName
          & Hs & Hf & Ho & Hok).
    rewrite (bind_inr _ _ _ _ _
               (oneofInfo_returns this _ _ _ _ _ w Hs Hf Ho)).
    destruct (createOneofADTTypeNode_returns this source descOneof sampleField
                rest sampleFieldInfo oneofName w Hs Hf Ho Hok)
      as (cases & w1 & Hrun & _).
    rewrite (bind_inr _ _ _ _ _ Hrun). cbv zeta.
    unfold bind. rewrite call_run. eexists; eexists; reflexivity.
Qed.

Lemma forOf_returns {W A S : Type} (l : list A) (body : A -> S -> M W S) :
  (forall x, In x l -> forall s w, exists s' w', body x s w = (inr s', w')) ->
  forall s w, exists s' w', forOf l body s w = (inr s', w').
Proof.
  induction l as [| x l IH]; intros Hbody s w; simpl.
  - eexists; eexists; reflexivity.
  - destruct (Hbody x (or_introl eq_refl) s w) as (s1 & w1 & H1).
    rewrite (bind_inr _ _ _ _ _ H1).
    apply IH. intros y Hy. apply Hbody. right. exact Hy.
Qed.

(** On well-formed metadata the class is generated: no exception leaves
    [generateMessageClass]. *)
Lemma generateMessageClass_returns {W : Type} (this : MessageClassGenerator W)
    source descMessage w :
  (forall fieldInfo,
      In fieldInfo
         (fields (getMessageType (interpreter this)
                    (inl (DescMessage_typeName descMessage)))) ->
      well_formed_field this descMessage fieldInfo) ->
  exists statement w',
    generateMessageClass this source descMessage w = (inr statement, w').
Proof.
  intros Hwf. unfold generateMessageClass.
  destruct (forOf_returns
              (fields (getMessageType (interpreter this)
                         (inl (DescMessage_typeName descMessage))))
              (fieldStep this source descMessage)
              (fun x Hx s w0 =>
                 fieldStep_well_formed this source descMessage x s w0
                   (Hwf x Hx))
              {| processedOneofs := []; ctorParams := [] |} w)
    as (st & w1 & Hloop).
  rewrite (bind_inr _ _ _ _ _ Hloop).
  unfold bind. rewrite !call_run. eexists; eexists; reflexivity.
Qed.

(** C5: in one pass over a message the constructor parameters are those of
    the emitting fields, one for one and in order; a group has exactly one
    emitting field however many of the fields belong to it, its parameter
    bears the group's local name and union type and no question token; and
    the loop leaves its state as it is at every field of a group whose name
    is among the processed ones. *)
Theorem group_emits_one_parameter :
  forall (W : Type) (this : MessageClassGenerator W) source descMessage w
         statement w',
    generateMessageClass this source descMessage w = (inr statement, w') ->
    exists params,
      ts.class_members statement = [ts.createConstructor params] /\
      Forall2 (emitted_for this source descMessage)
        (emitting descMessage []
           (fields (getMessageType (interpreter this)
                      (inl (DescMessage_typeName descMessage)))))
        params /\
      (forall groupName,
          existsb (inGroup descMessage groupName)
            (fields (getMessageType (interpreter this)
                       (inl (DescMessage_typeName descMessage)))) = true ->
          List.length
            (filter (inGroup descMessage groupName)
               (emitting descMessage []
                  (fields (getMessageType (interpreter this)
                             (inl (DescMessage_typeName descMessage))))))
          = 1) /\
      (forall fieldInfo st groupName descOneof w0,
          groupOf descMessage fieldInfo = Some (groupName, descOneof) ->
          includes (processedOneofs st) groupName = true ->
          fieldStep this source descMessage fieldInfo st w0 = (inr st, w0)).
Proof.
  intros W this source descMessage w statement w' H.
  unfold generateMessageClass in H. apply bind_returns in H.
  destruct H as (st & w1 & Hloop & H). cbv zeta in H.
  apply bind_returns in H. destruct H as (name & w2 & _ & H).
  apply bind_returns in H. destruct H as (u & w3 & _ & H).
  apply bind_returns in H. destruct H as (u' & w4 & _ & H).
  injection H as <- _.
  apply fieldLoop_emits in Hloop. destruct Hloop as (params & Hparams & Hall).
  simpl in Hparams. exists params. split; [| split; [| split]].
  - simpl. rewrite Hparams. reflexivity.
  - exact Hall.
  - intros groupName Hex. rewrite emitting_count. simpl. rewrite Hex.
    reflexivity.
  - intros fieldInfo st0 groupName descOneof w0 Hg Hincl.
    unfold groupOf in Hg. unfold fieldStep.
    destruct (findByNumber (DescMessage_fields descMessage)
                (FieldInfo.no fieldInfo)) as [descField |]; [| discriminate Hg].
    rewrite bind_assert_Some.
    destruct (truthy (FieldInfo.oneof fieldInfo)) as [g |]; [| discriminate Hg].
    destruct (DescField_oneof descField) as [o |]; [| discriminate Hg].
    injection Hg as -> ->. rewrite Hincl. reflexivity.
Qed.

Example emitting_Shape :
  emitting Shape.descMessage [] (fields Shape.messageType)
  = [Shape.fieldInfo 1 "width" (FieldInfo.scalar ScalarType.INT32 None) None;
     Shape.fieldInfo 2 "area" (FieldInfo.scalar ScalarType.UINT64 None) None;
     Shape.fieldInfo 3 "label" (FieldInfo.scalar ScalarType.STRING None)
       (Some "selector")].
Proof. reflexivity. Qed.

(** The pass over [Shape]. *)
Lemma group_emits_one_parameter_Shape :
  exists params,
    ts.class_members Shape.expectedClass = [ts.createConstructor params] /\
    Forall2 (emitted_for Shape.this Shape.source Shape.descMessage)
      (emitting Shape.descMessage [] (fields Shape.messageType)) params /\
    (forall groupName,
        existsb (inGroup Shape.descMessage groupName)
          (fields Shape.messageType) = true ->
        List.length
          (filter (inGroup Shape.descMessage groupName)
             (emitting Shape.descMessage [] (fields Shape.messageType)))
        = 1) /\
    (forall fieldInfo st groupName descOneof w0,
        groupOf Shape.descMessage fieldInfo = Some (groupName, descOneof) ->
        includes (processedOneofs st) groupName = true ->
        fieldStep Shape.this Shape.source Shape.descMessage fieldInfo st w0
        = (inr st, w0)).
Proof.
  exact (group_emits_one_parameter Shape.World Shape.this Shape.source
           Shape.descMessage Shape.emptyWorld Shape.expectedClass _
           generateMessageClass_Shape).
Defined.

(** ** Independence of the collaborators' state *)

Section Stateless.

Context {W : Type}.

Lemma stateless_ret {A : Type} (a : A) : stateless (@ret W A a).
Proof. intros w w'. reflexivity. Qed.

Lemma stateless_throw {A : Type} (e : Exception) : stateless (@throw W A e).
Proof. intros w w'. reflexivity. Qed.

Lemma stateless_assert {A : Type} (x : option A) : stateless (@assert W A x).
Proof. destruct x; [apply stateless_ret | apply stateless_throw]. Qed.

Lemma stateless_bind {A B : Type} (m : M W A) (k : A -> M W B) :
  stateless m -> (forall a, stateless (k a)) -> stateless (bind m k).
Proof.
  intros Hm Hk w w'. unfold bind. specialize (Hm w w').
  destruct (m w) as [[e | a] w1], (m w') as [[e' | a'] w1'];
    simpl in Hm; try discriminate Hm.
  - injection Hm as ->. reflexivity.
  - injection Hm as ->. apply Hk.
Qed.

Lemma stateless_call {A : Type} (c : Call W A) :
  (forall w w', fst (c w) = fst (c w')) -> stateless (call c).
Proof.
  intros H w w'. rewrite !call_run. simpl. rewrite (H w w'). reflexivity.
Qed.

(** A call that returns nothing. *)
Lemma stateless_call_unit (c : Call W unit) : stateless (call c).
Proof.
  apply stateless_call. intros w w'.
  destruct (fst (c w)), (fst (c w')). reflexivity.
Qed.

Lemma stateless_forOf {A S : Type} (l : list A) (body : A -> S -> M W S) :
  (forall x s, stateless (body x s)) -> forall s, stateless (forOf l body s).
Proof.
  intros Hbody. induction l as [| x l IH]; intros s; simpl.
  - apply stateless_ret.
  - apply stateless_bind; [apply Hbody | exact IH].
Qed.

Variable this : MessageClassGenerator W.
Hypothesis resolvers : deterministic_resolvers this.

Lemma stateless_createMessageTypeNode source name :
  stateless (createMessageTypeNode this source name).
Proof.
  apply stateless_bind.
  - apply stateless_call. apply (proj1 resolvers).
  - intros a. apply stateless_ret.
Qed.

Lemma stateless_createEnumTypeNode source ei :
  stateless (createEnumTypeNode this source ei).
Proof.
  apply stateless_bind.
  - apply stateless_call. apply (proj1 resolvers).
  - intros a. apply stateless_ret.
Qed.

Lemma stateless_createMapValueTypeNode source V :
  stateless (createMapValueTypeNode this source V).
Proof.
  destruct V as [T L | T | T |]; simpl.
  - apply stateless_ret.
  - apply stateless_bind;
      [apply stateless_createEnumTypeNode | intros a; apply stateless_ret].
  - apply stateless_bind;
      [apply stateless_createMessageTypeNode | intros a; apply stateless_ret].
  - apply stateless_ret.
Qed.

Lemma stateless_createTypeNode source descField fieldInfo :
  stateless (createTypeNode this source descField fieldInfo).
Proof.
  unfold createTypeNode.
  apply stateless_bind; [| intros a; apply stateless_ret].
  destruct (FieldInfo.kind fieldInfo) as [T L | T | T | K V |].
  - apply stateless_ret.
  - apply stateless_bind;
      [apply stateless_createEnumTypeNode | intros a; apply stateless_ret].
  - apply stateless_bind;
      [apply stateless_createMessageTypeNode | intros a; apply stateless_ret].
  - apply stateless_bind;
      [apply stateless_createMapValueTypeNode | intros a; apply stateless_ret].
  - apply stateless_throw.
Qed.

Lemma stateless_oneofInfo descOneof : stateless (oneofInfo this descOneof).
Proof.
  unfold oneofInfo. destruct (DescOneof_fields descOneof) as [| sampleField rest].
  - destruct (fields _); apply stateless_throw.
  - apply stateless_bind; [apply stateless_assert | intros sampleFieldInfo].
    apply stateless_bind; [apply stateless_assert | intros oneofName].
    apply stateless_ret.
Qed.

Lemma stateless_oneofCaseStep source parentMessageDesc fieldInfo oneofCases :
  stateless (oneofCaseStep this source parentMessageDesc fieldInfo oneofCases).
Proof.
  unfold oneofCaseStep.
  apply stateless_bind; [apply stateless_assert | intros descField].
  apply stateless_bind; [apply stateless_createTypeNode | intros typeNode].
  apply stateless_ret.
Qed.

Lemma stateless_createOneofADTTypeNode source descOneof :
  stateless (createOneofADTTypeNode this source descOneof).
Proof.
  unfold createOneofADTTypeNode.
  apply stateless_bind; [apply stateless_oneofInfo |].
  intros [[parentMessageDesc interpreterType] oneofLocalName].
  apply stateless_bind; [| intros oneofCases; apply stateless_ret].
  apply stateless_forOf. intros x s. apply stateless_oneofCaseStep.
Qed.

Lemma stateless_fieldStep source descMessage fieldInfo st :
  stateless (fieldStep this source descMessage fieldInfo st).
Proof.
  unfold fieldStep.
  apply stateless_bind; [apply stateless_assert | intros descField].
  assert (Hregular :
            stateless
              (type <- createTypeNode this source descField fieldInfo ;;
               let param :=
                 ts.createParameter publicReadonly
                   (FieldInfo.localName fieldInfo) (FieldInfo.opt fieldInfo)
                   type in
               call (addCommentsForDescriptor (comments this)
                       (ParameterNode param) (OfField descField)
                       "trailingLines") ;;
               ret {| processedOneofs := processedOneofs st;
                      ctorParams := ctorParams st ++ [param] |})).
  { apply stateless_bind; [apply stateless_createTypeNode | intros type].
    apply stateless_bind; [apply stateless_call_unit | intros u].
    apply stateless_ret. }
  destruct (truthy (FieldInfo.oneof fieldInfo)) as [g |]; [| exact Hregular].
  destruct (DescField_oneof descField) as [descOneof |]; [| exact Hregular].
  destruct (includes (processedOneofs st) g); [apply stateless_ret |].
  apply stateless_bind; [apply stateless_oneofInfo |].
  intros [[parent interpreterType] oneofLocalName].
  apply stateless_bind;
    [apply stateless_createOneofADTTypeNode | intros oneofType].
  apply stateless_bind; [apply stateless_call_unit | intros u].
  apply stateless_ret.
Qed.

Lemma stateless_generateMessageClass source descMessage :
  stateless (generateMessageClass this source descMessage).
Proof.
  unfold generateMessageClass.
  apply stateless_bind.
  - apply stateless_forOf. intros x s. apply stateless_fieldStep.
  - intros st. apply stateless_bind.
    + apply stateless_call. apply (proj2 resolvers).
    + intros name. apply stateless_bind; [apply stateless_call_unit | intros u].
      apply stateless_bind; [apply stateless_call_unit | intros u'].
      apply stateless_ret.
Qed.

End Stateless.

(** C6: with resolvers whose names do not depend on the state, two
    invocations for the same message return the same result, the same
    class declaration (parameters and union cases in the same order) or
    the same exception, in whatever states they run; in particular the
    second of two invocations in a row returns what the first returned. *)
Theorem generateMessageClass_idempotent :
  forall (W : Type) (this : MessageClassGenerator W) source descMessage,
    deterministic_resolvers this ->
    (forall w w',
        fst (generateMessageClass this source descMessage w)
        = fst (generateMessageClass this source descMessage w')) /\
    (forall w,
        fst (generateMessageClass this source descMessage
               (snd (generateMessageClass this source descMessage w)))
        = fst (generateMessageClass this source descMessage w)).
Proof.
  intros W this source descMessage Hdet.
  pose proof (stateless_generateMessageClass this Hdet source descMessage) as H.
  split.
  - exact H.
  - intros w. apply H.
Qed.

Lemma Shape_resolvers_deterministic : deterministic_resolvers Shape.this.
Proof. split; intros; reflexivity. Qed.

(** The generator of [Shape], whose resolver records every resolved name in
    the state and returns the name as it is. *)
Lemma generateMessageClass_idempotent_Shape :
  (forall w w',
      fst (generateMessageClass Shape.this Shape.source Shape.descMessage w)
      = fst (generateMessageClass Shape.this Shape.source Shape.descMessage w')) /\
  (forall w,
      fst (generateMessageClass Shape.this Shape.source Shape.descMessage
             (snd (generateMessageClass Shape.this Shape.source
                     Shape.descMessage w)))
      = fst (generateMessageClass Shape.this Shape.source Shape.descMessage w)).
Proof.
  exact (generateMessageClass_idempotent Shape.World Shape.this Shape.source
           Shape.descMessage Shape_resolvers_deterministic).
Defined.

(** The second invocation for [Shape] returns the same class; the source
    file then holds the declaration twice. *)
Example generateMessageClass_Shape_twice :
  generateMessageClass Shape.this Shape.source Shape.descMessage
    (snd (generateMessageClass Shape.this Shape.source Shape.descMessage
            Shape.emptyWorld))
  = (inr Shape.expectedClass,
     {| Shape.statements := [Shape.expectedClass; Shape.expectedClass];
        Shape.imported := ["Point"; "Point"];
        Shape.commented := 8 |}).
Proof. reflexivity. Qed.

(** * Further properties *)

(** ** The resolver *)

(** X1: the resolver on a repeated field returns the array type of what it
    returns on the same field not repeated, in the same final state; when
    it throws on the one it throws the same on the other. *)
Theorem repeated_field_wraps_base_type :
  forall (W : Type) (this : MessageClassGenerator W) source descField
         fieldInfo w,
    createTypeNode this source descField (withRepeat true fieldInfo) w
    = match createTypeNode this source descField (withRepeat false fieldInfo) w
      with
      | (inr base, w') => (inr (Some (ts.createArrayTypeNode base)), w')
      | (inl e, w') => (inl e, w')
      end.
Proof.
  intros W this source descField fieldInfo w.
  unfold createTypeNode, withRepeat. cbn [FieldInfo.kind FieldInfo.repeat].
  match goal with |- bind ?m _ w = _ => generalize m end. intros m.
  unfold bind, ret. destruct (m w) as [[e | base] w']; reflexivity.
Qed.

(** X2: on a width-64 integer kind two different long types give two
    different types, and an absent long type gives the type of [STRING]:
    the long type of a field can be read off its resolved type. *)
Theorem long_types_give_distinct_types :
  forall T : ScalarType.t,
    ScalarType.is_long T = true ->
    (forall l1 l2 : LongType.t,
        l1 <> l2 ->
        createScalarTypeNode T (Some l1) <> createScalarTypeNode T (Some l2)) /\
    createScalarTypeNode T None = createScalarTypeNode T (Some LongType.STRING).
Proof.
  intros T HT. split.
  - intros l1 l2 Hne.
    rewrite !(createScalarTypeNode_long T _ HT). simpl.
    destruct l1, l2; try discriminate; contradiction Hne; reflexivity.
  - rewrite !(createScalarTypeNode_long T _ HT). reflexivity.
Qed.

(** The kind sint64. *)
Lemma long_types_give_distinct_types_sint64 :
  (forall l1 l2 : LongType.t,
      l1 <> l2 ->
      createScalarTypeNode ScalarType.SINT64 (Some l1)
      <> createScalarTypeNode ScalarType.SINT64 (Some l2)) /\
  createScalarTypeNode ScalarType.SINT64 None
  = createScalarTypeNode ScalarType.SINT64 (Some LongType.STRING).
Proof.
  exact (long_types_give_distinct_types ScalarType.SINT64 eq_refl).
Defined.

(** X3: the key of a map field is typed by the key kind alone: the number
    type for the 32-bit integer and the floating-point kinds,
    [Uint8Array] for bytes and the string type for every other kind; it is
    never the boolean or the bigint type. *)
Theorem map_key_type_table :
  forall (W : Type) (this : MessageClassGenerator W) source descField
         fieldInfo K V w,
    FieldInfo.kind fieldInfo = FieldInfo.map K V ->
    exists valueType w',
      createTypeNode this source descField fieldInfo w
      = (inr (let type :=
                Some (ts.createTypeLiteralNode
                        [ts.createIndexSignature
                           [ts.createParameter None "key" false
                              (Some
                                 match K with
                                 | ScalarType.BYTES =>
                                     ts.createTypeReferenceNode "Uint8Array"
                                 | ScalarType.DOUBLE | ScalarType.FLOAT
                                 | ScalarType.INT32 | ScalarType.FIXED32
                                 | ScalarType.UINT32 | ScalarType.SFIXED32
                                 | ScalarType.SINT32 =>
                                     ts.createKeywordTypeNode
                                       ts.SyntaxKind.NumberKeyword
                                 | _ =>
                                     ts.createKeywordTypeNode
                                       ts.SyntaxKind.StringKeyword
                                 end)]
                           valueType]) in
              if FieldInfo.repeat fieldInfo
              then Some (ts.createArrayTypeNode type) else type), w').
Proof.
  intros W this source descField fieldInfo K V w HK.
  destruct (createMapValueTypeNode_returns this source V w)
    as (valueType & w' & HV).
  exists valueType, w'.
  rewrite (createTypeNode_map this _ _ _ _ _ _ _ _ HK HV).
  destruct K; reflexivity.
Qed.

(** A map from fixed32 keys to messages [Point], under the bigint
    configuration. *)
Lemma map_key_type_table_fixed32 :
  exists valueType w',
    createTypeNode
      (Shape.generator (fun _ => Shape.messageType) LongType.BIGINT)
      Shape.source (Shape.plainField 2 "area")
      (Shape.fieldInfo 2 "area"
         (FieldInfo.map ScalarType.FIXED32 (FieldInfo.V_message "Point")) None)
      Shape.emptyWorld
    = (inr (Some (ts.createTypeLiteralNode
                    [ts.createIndexSignature
                       [ts.createParameter None "key" false
                          (Some (ts.createKeywordTypeNode
                                   ts.SyntaxKind.NumberKeyword))]
                       valueType])), w').
Proof.
  exact (map_key_type_table Shape.World
           (Shape.generator (fun _ => Shape.messageType) LongType.BIGINT)
           Shape.source (Shape.plainField 2 "area")
           (Shape.fieldInfo 2 "area"
              (FieldInfo.map ScalarType.FIXED32 (FieldInfo.V_message "Point"))
              None)
           ScalarType.FIXED32 (FieldInfo.V_message "Point")
           Shape.emptyWorld eq_refl).
Defined.

(** The state the resolver leaves. *)
Lemma createTypeNode_final_state {W : Type} (this : MessageClassGenerator W)
    source descField fieldInfo w :
  snd (createTypeNode this source descField fieldInfo w)
  = match referencedTypeName (FieldInfo.kind fieldInfo) with
    | Some name => snd (typeByName (imports this) source name w)
    | None => w
    end.
Proof.
  unfold createTypeNode.
  destruct (FieldInfo.kind fieldInfo) as [T L | T | T | K V |]; simpl.
  - reflexivity.
  - unfold bind, createEnumTypeNode, bind. rewrite call_run. reflexivity.
  - unfold bind, createMessageTypeNode, bind. rewrite call_run. reflexivity.
  - destruct V as [T L | T | T |]; simpl.
    + reflexivity.
    + unfold bind, createEnumTypeNode, bind. rewrite call_run. reflexivity.
    + unfold bind, createMessageTypeNode, bind. rewrite call_run. reflexivity.
    + reflexivity.
  - reflexivity.
Qed.

(** X4: the resolver calls the import resolver at most once: once, with
    the name of the referenced type, for an enum or message field and for
    a map of enum or message values, and not at all for any other field;
    for an enum or message field the type is the reference to the name the
    call returns. *)
Theorem resolver_calls_typeByName_at_most_once :
  forall (W : Type) (this : MessageClassGenerator W) source descField
         fieldInfo w,
    snd (createTypeNode this source descField fieldInfo w)
    = match referencedTypeName (FieldInfo.kind fieldInfo) with
      | Some name => snd (typeByName (imports this) source name w)
      | None => w
      end /\
    match FieldInfo.kind fieldInfo with
    | FieldInfo.enum _ | FieldInfo.message _ =>
        forall name,
          referencedTypeName (FieldInfo.kind fieldInfo) = Some name ->
          fst (createTypeNode this source descField fieldInfo w)
          = inr (let type :=
                   Some (ts.createTypeReferenceNode
                           (fst (typeByName (imports this) source name w))) in
                 if FieldInfo.repeat fieldInfo
                 then Some (ts.createArrayTypeNode type) else type)
    | _ => True
    end.
Proof.
  intros W this source descField fieldInfo w.
  split; [apply createTypeNode_final_state |].
  unfold createTypeNode.
  destruct (FieldInfo.kind fieldInfo) as [T L | T | T | K V |]; simpl;
    try exact I.
  - unfold bind, createEnumTypeNode, bind. rewrite call_run. simpl.
    intros name H. injection H as <-. reflexivity.
  - unfold bind, createMessageTypeNode, bind. rewrite call_run. simpl.
    intros name H. injection H as <-. reflexivity.
Qed.

(** ** The union type, for every input *)

Lemma oneofInfo_inversion {W : Type} (this : MessageClassGenerator W)
    descOneof w parent interpreterType oneofName w' :
  oneofInfo this descOneof w = (inr (parent, interpreterType, oneofName), w') ->
  parent = DescOneof_parent descOneof /\
  interpreterType
  = getMessageType (interpreter this) (inr (DescOneof_parent descOneof)) /\
  w' = w /\
  exists sampleField rest sampleFieldInfo,
    DescOneof_fields descOneof = sampleField :: rest /\
    find (fun fi => Z.eqb (FieldInfo.no fi) (DescField_number sampleField))
         (fields (getMessageType (interpreter this)
                    (inr (DescOneof_parent descOneof))))
    = Some sampleFieldInfo /\
    FieldInfo.oneof sampleFieldInfo = Some oneofName.
Proof.
  unfold oneofInfo.
  destruct (DescOneof_fields descOneof) as [| sampleField rest] eqn:Es.
  - destruct (fields _); discriminate.
  - destruct (find _ _) as [sampleFieldInfo |] eqn:Ef.
    + rewrite bind_assert_Some.
      destruct (FieldInfo.oneof sampleFieldInfo) as [name |] eqn:Eo.
      * rewrite bind_assert_Some. unfold ret. intros H.
        injection H as <- <- <- <-. repeat split.
        exists sampleField, rest, sampleFieldInfo. repeat split; assumption.
      * rewrite bind_assert_None. discriminate.
    + rewrite bind_assert_None. discriminate.
Qed.

(** Whenever the loop over the members returns, it has appended one case
    per member, in order. *)
Lemma oneofCases_loop_inversion {W : Type} (this : MessageClassGenerator W)
    source parentMessageDesc members :
  forall oneofCases w result w',
    forOf members (oneofCaseStep this source parentMessageDesc) oneofCases w
    = (inr result, w') ->
    exists cases,
      result = oneofCases ++ cases /\
      Forall2 (is_member_case this source parentMessageDesc) members cases.
Proof.
  induction members as [| fi members IH]; intros oneofCases w result w' H;
    simpl in H.
  - injection H as <- _. exists []. rewrite app_nil_r. split; constructor.
  - apply bind_returns in H. destruct H as (cases1 & w1 & Hstep & Hrest).
    unfold oneofCaseStep in Hstep.
    destruct (findByNumber (DescMessage_fields parentMessageDesc)
                (FieldInfo.no fi)) as [descField |] eqn:Ed.
    2: { rewrite bind_assert_None in Hstep. discriminate Hstep. }
    rewrite bind_assert_Some in Hstep. apply bind_returns in Hstep.
    destruct Hstep as (typeNode & w2 & HT & Hret).
    unfold ret in Hret. injection Hret as <- <-.
    apply IH in Hrest. destruct Hrest as (cases & -> & Hall).
    eexists (_ :: cases). split.
    + rewrite <- app_assoc. reflexivity.
    + constructor; [| exact Hall].
      exists descField, typeNode, w, w2. repeat split; assumption.
Qed.

(** X5: whenever the union synthesis returns, the union is the member
    cases, one per member in order, followed by the [undefined] case, and
    there is at least one member case: the sample member of the group is
    always among the members, so the union is never the [undefined] case
    alone. *)
Theorem returned_union_has_a_member_case :
  forall (W : Type) (this : MessageClassGenerator W) source descOneof w
         unionType w',
    createOneofADTTypeNode this source descOneof w = (inr unionType, w') ->
    exists oneofLocalName firstCase cases,
      oneofInfo this descOneof w
      = (inr (DescOneof_parent descOneof,
              getMessageType (interpreter this)
                (inr (DescOneof_parent descOneof)),
              oneofLocalName), w) /\
      unionType
      = ts.createUnionTypeNode
          ((firstCase :: cases) ++
           [ts.createTypeLiteralNode
              [ts.createPropertySignature
                 (oneofKindDiscriminator (options this)) false
                 (Some (ts.createKeywordTypeNode
                          ts.SyntaxKind.UndefinedKeyword))]]) /\
      Forall2 (is_member_case this source (DescOneof_parent descOneof))
        (memberFieldInfos this descOneof oneofLocalName) (firstCase :: cases).
Proof.
  intros W this source descOneof w unionType w' H.
  unfold createOneofADTTypeNode in H. apply bind_returns in H.
  destruct H as ([[parent interpreterType] oneofLocalName] & w1 & HI & H).
  destruct (oneofInfo_inversion this _ _ _ _ _ _ HI)
    as (-> & -> & -> & sampleField & rest & sampleFieldInfo & Hs & Hf & Ho).
  apply bind_returns in H. destruct H as (result & w2 & Hloop & H).
  unfold ret in H. injection H as <- _.
  fold (memberFieldInfos this descOneof oneofLocalName) in Hloop.
  apply oneofCases_loop_inversion in Hloop.
  destruct Hloop as (cases & -> & Hall). simpl.
  assert (Hin : In sampleFieldInfo (memberFieldInfos this descOneof oneofLocalName)).
  { unfold memberFieldInfos. apply filter_In. split.
    - exact (proj1 (find_some _ _ Hf)).
    - rewrite Ho. simpl. apply String.eqb_refl. }
  exists oneofLocalName.
  destruct Hall as [| fi firstCase members cases' Hfirst Hrest].
  - contradiction Hin.
  - exists firstCase, cases'. split; [exact HI | split; [reflexivity |]].
    constructor; assumption.
Qed.

(** The group [selector] of [Shape]. *)
Lemma returned_union_has_a_member_case_selector :
  exists oneofLocalName firstCase cases,
    oneofInfo Shape.this Shape.selector Shape.emptyWorld
    = (inr (Shape.parentMessage, Shape.messageType, oneofLocalName),
       Shape.emptyWorld) /\
    Shape.selectorType
    = ts.createUnionTypeNode
        ((firstCase :: cases) ++
         [ts.createTypeLiteralNode
            [ts.createPropertySignature "kind" false
               (Some (ts.createKeywordTypeNode
                        ts.SyntaxKind.UndefinedKeyword))]]) /\
    Forall2 (is_member_case Shape.this Shape.source Shape.parentMessage)
      (memberFieldInfos Shape.this Shape.selector oneofLocalName)
      (firstCase :: cases).
Proof.
  exact (returned_union_has_a_member_case Shape.World Shape.this Shape.source
           Shape.selector Shape.emptyWorld Shape.selectorType
           {| Shape.statements := []; Shape.imported := ["Point"];
              Shape.commented := 0 |} eq_refl).
Defined.

Lemma forOf_fails {W A S : Type} (l : list A) (body : A -> S -> M W S) x :
  In x l ->
  (forall s w, exists e w', body x s w = (inl e, w')) ->
  forall s w, exists e w', forOf l body s w = (inl e, w').
Proof.
  intros Hin Hx s w. destruct (in_split _ _ Hin) as (pre & post & ->).
  destruct (run_cases (forOf pre body s) w)
    as [(e & w' & Hpre) | (s1 & w1 & Hpre)].
  - exists e, w'. rewrite forOf_app. apply bind_inl. exact Hpre.
  - destruct (Hx s1 w1) as (e & w2 & He). exists e, w2.
    exact (forOf_throws _ _ _ _ _ _ _ _ _ _ Hpre He).
Qed.

(** X6: the union synthesis throws whenever one of the group's members has
    no schema field of its number in the parent message or has a kind that
    is not a declared one, wherever in the group the member stands. *)
Theorem union_fails_on_ill_formed_member :
  forall (W : Type) (this : MessageClassGenerator W) source descOneof w
         parent interpreterType oneofLocalName fieldInfo,
    oneofInfo this descOneof w
    = (inr (parent, interpreterType, oneofLocalName), w) ->
    In fieldInfo (memberFieldInfos this descOneof oneofLocalName) ->
    findByNumber (DescMessage_fields (DescOneof_parent descOneof))
      (FieldInfo.no fieldInfo) = None \/
    FieldInfo.kind fieldInfo = FieldInfo.unknown ->
    exists e w',
      createOneofADTTypeNode this source descOneof w = (inl e, w').
Proof.
  intros W this source descOneof w parent interpreterType oneofLocalName
         fieldInfo HI Hin Hbad.
  destruct (oneofInfo_inversion this _ _ _ _ _ _ HI) as (-> & -> & _ & _).
  unfold createOneofADTTypeNode. rewrite (bind_inr _ _ _ _ _ HI).
  fold (memberFieldInfos this descOneof oneofLocalName).
  destruct (forOf_fails (memberFieldInfos this descOneof oneofLocalName)
              (oneofCaseStep this source (DescOneof_parent descOneof))
              fieldInfo Hin) with (s := @nil ts.TypeNode) (w := w)
    as (e & w' & Hloop).
  - intros s w0. unfold oneofCaseStep.
    destruct (findByNumber (DescMessage_fields (DescOneof_parent descOneof))
                (FieldInfo.no fieldInfo)) as [descField |] eqn:Ed.
    + destruct Hbad as [Hbad | Hbad]; [discriminate Hbad |].
      rewrite bind_assert_Some. eexists; eexists. apply bind_inl.
      apply (createTypeNode_unknown this source descField fieldInfo w0 Hbad).
    + rewrite bind_assert_None. eexists; eexists; reflexivity.
  - exists e, w'. apply bind_inl. exact Hloop.
Qed.

(** The group [selector] when its second member [anchor] has an undeclared
    kind. *)
Lemma union_fails_on_ill_formed_member_anchor :
  exists e w',
    createOneofADTTypeNode
      (Shape.generator
         (fun _ =>
            {| typeName := "Shape";
               fields :=
                 [Shape.fieldInfo 3 "label"
                    (FieldInfo.scalar ScalarType.STRING None) (Some "selector");
                  Shape.fieldInfo 4 "anchor" FieldInfo.unknown
                    (Some "selector")] |})
         LongType.STRING)
      Shape.source Shape.selector Shape.emptyWorld
    = (inl e, w').
Proof.
  apply (union_fails_on_ill_formed_member Shape.World _ Shape.source
           Shape.selector Shape.emptyWorld Shape.parentMessage
           {| typeName := "Shape";
              fields :=
                [Shape.fieldInfo 3 "label"
                   (FieldInfo.scalar ScalarType.STRING None) (Some "selector");
                 Shape.fieldInfo 4 "anchor" FieldInfo.unknown
                   (Some "selector")] |}
           "selector"
           (Shape.fieldInfo 4 "anchor" FieldInfo.unknown (Some "selector"))).
  - reflexivity.
  - right. left. reflexivity.
  - right. reflexivity.
Defined.

(** ** The property declarations *)

(** X7: the property declaration of a group and the union synthesis agree:
    the declaration throws what the synthesis throws, in the same state,
    and when the synthesis returns a union the declaration is the public
    readonly property named by the group's local name, without question
    token, typed by that same union; its comment is attached last. *)
Theorem oneof_property_has_the_union_type :
  forall (W : Type) (this : MessageClassGenerator W) (env : Surroundings W)
         source descOneof w,
    (forall e w',
        createOneofADTTypeNode this source descOneof w = (inl e, w') ->
        createOneofADTPropertyDeclaration this env source descOneof w
        = (inl e, w')) /\
    (forall unionType w',
        createOneofADTTypeNode this source descOneof w = (inr unionType, w') ->
        exists parent interpreterType oneofLocalName,
          oneofInfo this descOneof w
          = (inr (parent, interpreterType, oneofLocalName), w) /\
          createOneofADTPropertyDeclaration this env source descOneof w
          = (inr (createProperty publicReadonly oneofLocalName false
                    (Some unionType)),
             snd (addCommentsForProperty env
                    (createProperty publicReadonly oneofLocalName false
                       (Some unionType))
                    (OfOneof descOneof) "appendToLeadingBlock" w'))).
Proof.
  intros W this env source descOneof w.
  unfold createOneofADTPropertyDeclaration, createOneofADTTypeNode.
  destruct (run_cases (oneofInfo this descOneof) w)
    as [(e0 & w0 & HI) | ([[parent interpreterType] oneofLocalName] & w0 & HI)].
  - rewrite !(bind_inl _ _ _ _ _ HI). split.
    + intros e w' H. injection H as <- <-. reflexivity.
    + intros unionType w' H. discriminate H.
  - rewrite !(bind_inr _ _ _ _ _ HI).
    pose proof (oneofInfo_state this descOneof w) as Hs.
    rewrite HI in Hs. simpl in Hs. subst w0.
    change (oneofPropertyCaseStep this source parent)
      with (oneofCaseStep this source parent).
    destruct (run_cases
                (forOf (filter
                          (fun fi => strict_eq (FieldInfo.oneof fi)
                                       oneofLocalName)
                          (fields interpreterType))
                   (oneofCaseStep this source parent) []) w)
      as [(e1 & w1 & Hloop) | (cases & w1 & Hloop)].
    + rewrite !(bind_inl _ _ _ _ _ Hloop). split.
      * intros e w' H. injection H as <- <-. reflexivity.
      * intros unionType w' H. discriminate H.
    + rewrite !(bind_inr _ _ _ _ _ Hloop). split.
      * intros e w' H. discriminate H.
      * intros unionType w' H. unfold ret in H. injection H as <- <-.
        exists parent, interpreterType, oneofLocalName.
        split; [exact HI |]. cbv zeta.
        unfold bind. rewrite call_run. reflexivity.
Qed.

(** The property declaration of the group [selector]. *)
Lemma oneof_property_has_the_union_type_selector :
  exists parent interpreterType oneofLocalName,
    oneofInfo Shape.this Shape.selector Shape.emptyWorld
    = (inr (parent, interpreterType, oneofLocalName), Shape.emptyWorld) /\
    createOneofADTPropertyDeclaration Shape.this shapeSurroundings
      Shape.source Shape.selector Shape.emptyWorld
    = (inr (createProperty publicReadonly oneofLocalName false
              (Some Shape.selectorType)),
       {| Shape.statements := []; Shape.imported := ["Point"];
          Shape.commented := 1 |}).
Proof.
  exact (proj2 (oneof_property_has_the_union_type Shape.World Shape.this
                  shapeSurroundings Shape.source Shape.selector
                  Shape.emptyWorld)
           Shape.selectorType
           {| Shape.statements := []; Shape.imported := ["Point"];
              Shape.commented := 0 |} eq_refl).
Defined.

(** X8: the property declaration of a field and the constructor parameter
    of the same field, outside a group, carry the same modifiers, name,
    question token and type: where the declaration is returned, the loop
    of [generateMessageClass] run in the same state appends that
    parameter. *)
Theorem field_property_matches_constructor_parameter :
  forall (W : Type) (this : MessageClassGenerator W) (env : Surroundings W)
         source descMessage descField fieldInfo st w modifiers name
         questionToken type w1,
    findByNumber (DescMessage_fields descMessage) (FieldInfo.no fieldInfo)
    = Some descField ->
    truthy (FieldInfo.oneof fieldInfo) = None \/
    DescField_oneof descField = None ->
    createFieldPropertyDeclaration this env source descField fieldInfo w
    = (inr (createProperty modifiers name questionToken type), w1) ->
    exists w2,
      fieldStep this source descMessage fieldInfo st w
      = (inr {| processedOneofs := processedOneofs st;
                ctorParams :=
                  ctorParams st ++
                  [ts.createParameter modifiers name questionToken type] |},
         w2).
Proof.
  intros W this env source descMessage descField fieldInfo st w modifiers name
         questionToken type w1 Hfind Hreg H.
  unfold createFieldPropertyDeclaration in H. apply bind_returns in H.
  destruct H as (type0 & w0 & HT & H). cbv zeta in H.
  apply bind_returns in H. destruct H as (u & w3 & _ & H).
  unfold ret in H. injection H as <- <- <- <- _.
  rewrite (fieldStep_regular this _ _ _ _ _ _ Hfind Hreg).
  rewrite (bind_inr _ _ _ _ _ HT). cbv zeta.
  unfold bind. rewrite call_run. eexists. reflexivity.
Qed.

(** The field [area] of [Shape]. *)
Lemma field_property_matches_constructor_parameter_area :
  exists w2,
    fieldStep Shape.this Shape.source Shape.descMessage areaInfo
      {| processedOneofs := []; ctorParams := [] |} Shape.emptyWorld
    = (inr {| processedOneofs := [];
              ctorParams :=
                [ts.createParameter publicReadonly "area" false
                   (Some (ts.createKeywordTypeNode
                            ts.SyntaxKind.StringKeyword))] |}, w2).
Proof.
  exact (field_property_matches_constructor_parameter Shape.World Shape.this
           shapeSurroundings Shape.source Shape.descMessage
           (Shape.plainField 2 "area") areaInfo
           {| processedOneofs := []; ctorParams := [] |} Shape.emptyWorld
           publicReadonly "area" false
           (Some (ts.createKeywordTypeNode ts.SyntaxKind.StringKeyword))
           {| Shape.statements := []; Shape.imported := [];
              Shape.commented := 1 |}
           eq_refl (or_introl eq_refl) eq_refl).
Defined.

(** ** The class name *)

Lemma length_append (s t : string) :
  String.length (String.append s t) = String.length s + String.length t.
Proof. induction s as [| c s IH]; simpl; [| rewrite IH]; reflexivity. Qed.

Lemma append_suffix_injective (suffix s s' : string) :
  String.append s suffix = String.append s' suffix -> s = s'.
Proof.
  revert s'. induction s as [| c s IH]; intros [| c' s'] H; simpl in H.
  - reflexivity.
  - exfalso. apply (f_equal String.length) in H. simpl in H.
    rewrite length_append in H. lia.
  - exfalso. apply (f_equal String.length) in H. simpl in H.
    rewrite length_append in H. lia.
  - injection H as -> H. f_equal. apply IH. exact H.
Qed.

(** X9: [registerSymbols] makes one call, to [symbols.register], with the
    kind [message-class] and the local type name followed by [Ctor]; this
    class name is never the local type name itself, so the class and the
    type of one message do not share a name, and two messages of different
    local type names are registered under different class names. *)
Theorem registered_class_name_is_distinct :
  forall (W : Type) (env : Surroundings W) source descMessage w,
    registerSymbols env source descMessage w
    = (inr tt,
       snd (register (symbols env)
              (String.append (createLocalTypeName env descMessage) "Ctor")
              descMessage source "message-class" w)) /\
    String.append (createLocalTypeName env descMessage) "Ctor"
    <> createLocalTypeName env descMessage /\
    (forall descMessage',
        createLocalTypeName env descMessage
        <> createLocalTypeName env descMessage' ->
        String.append (createLocalTypeName env descMessage) "Ctor"
        <> String.append (createLocalTypeName env descMessage') "Ctor").
Proof.
  intros W env source descMessage w. split; [| split].
  - unfold registerSymbols. rewrite call_run.
    destruct (fst (register _ _ _ _ _ w)). reflexivity.
  - intros H. apply (f_equal String.length) in H.
    rewrite length_append in H. simpl in H. lia.
  - intros descMessage' Hne Heq. apply Hne.
    exact (append_suffix_injective _ _ _ Heq).
Qed.

(** ** The constructor parameters, counted and named *)

Lemma generateMessageClass_inversion {W : Type}
    (this : MessageClassGenerator W) source descMessage w statement w' :
  generateMessageClass this source descMessage w = (inr statement, w') ->
  exists st w1,
    forOf (fields (getMessageType (interpreter this)
                     (inl (DescMessage_typeName descMessage))))
      (fieldStep this source descMessage)
      {| processedOneofs := []; ctorParams := [] |} w = (inr st, w1) /\
    ts.class_members statement = [ts.createConstructor (ctorParams st)].
Proof.
  intros H. unfold generateMessageClass in H. apply bind_returns in H.
  destruct H as (st & w1 & Hloop & H). cbv zeta in H.
  apply bind_returns in H. destruct H as (name & w2 & _ & H).
  apply bind_returns in H. destruct H as (u & w3 & _ & H).
  apply bind_returns in H. destruct H as (u' & w4 & _ & H).
  unfold ret in H. injection H as <- _.
  exists st, w1. split; [exact Hloop | reflexivity].
Qed.


Lemma emitting_outside_groups (descMessage : DescMessage) fieldInfos :
  (forall fi, In fi fieldInfos -> groupOf descMessage fi = None) ->
  forall processed, emitting descMessage processed fieldInfos = fieldInfos.
Proof.
  induction fieldInfos as [| fi rest IH]; intros Hnone processed; simpl.
  - reflexivity.
  - rewrite (Hnone fi (or_introl eq_refl)). f_equal.
    apply IH. intros x Hx. apply Hnone. right. exact Hx.
Qed.

(** X11: for a message none of whose fields is treated as a group member,
    a successful generation gives one constructor parameter per metadata
    field, in the order of the metadata: the parameter names are the local
    names of the fields and the question tokens their optional flags. *)
Theorem parameters_follow_fields_outside_groups :
  forall (W : Type) (this : MessageClassGenerator W) source descMessage w
         statement w',
    (forall fi,
        In fi (fields (getMessageType (interpreter this)
                         (inl (DescMessage_typeName descMessage)))) ->
        groupOf descMessage fi = None) ->
    generateMessageClass this source descMessage w = (inr statement, w') ->
    exists params,
      ts.class_members statement = [ts.createConstructor params] /\
      List.map parameterName params
      = List.map FieldInfo.localName
          (fields (getMessageType (interpreter this)
                     (inl (DescMessage_typeName descMessage)))) /\
      List.map parameterQuestionToken params
      = List.map FieldInfo.opt
          (fields (getMessageType (interpreter this)
                     (inl (DescMessage_typeName descMessage)))).
Proof.
  intros W this source descMessage w statement w' Hnone H.
  apply generateMessageClass_inversion in H.
  destruct H as (st & w1 & Hloop & Hmembers).
  apply fieldLoop_emits in Hloop. destruct Hloop as (params & Hparams & Hall).
  simpl in Hparams, Hall. rewrite (emitting_outside_groups _ _ Hnone) in Hall.
  exists (ctorParams st). split; [exact Hmembers |]. rewrite Hparams.
  clear Hparams Hmembers.
  induction Hall as [| fi param rest params Hone Hall IH].
  - split; reflexivity.
  - unfold emitted_for in Hone.
    rewrite (Hnone fi (or_introl eq_refl)) in Hone.
    destruct Hone as (descField & type & w2 & w3 & _ & _ & ->).
    destruct IH as [IHn IHq].
    + intros x Hx. apply Hnone. right. exact Hx.
    + simpl. rewrite IHn, IHq. split; reflexivity.
Qed.

(** The message [Lone], whose only field is treated as a regular field. *)
Lemma parameters_follow_fields_outside_groups_Lone :
  exists params,
    [ts.createConstructor
       [ts.createParameter publicReadonly "only" false
          (Some (ts.createKeywordTypeNode ts.SyntaxKind.NumberKeyword))]]
    = [ts.createConstructor params] /\
    List.map parameterName params = ["only"] /\
    List.map parameterQuestionToken params = [false].
Proof.
  apply (parameters_follow_fields_outside_groups Shape.World loneGenerator
           Shape.source loneMessage Shape.emptyWorld
           (ts.createClassDeclaration [ts.SyntaxKind.ExportKeyword] "LoneCtor"
              [ts.createConstructor
                 [ts.createParameter publicReadonly "only" false
                    (Some (ts.createKeywordTypeNode
                             ts.SyntaxKind.NumberKeyword))]])
           {| Shape.statements :=
                [ts.createClassDeclaration [ts.SyntaxKind.ExportKeyword]
                   "LoneCtor"
                   [ts.createConstructor
                      [ts.createParameter publicReadonly "only" false
                         (Some (ts.createKeywordTypeNode
                                  ts.SyntaxKind.NumberKeyword))]]];
              Shape.imported := [];
              Shape.commented := 2 |}).
  - intros fi [<- | []]. reflexivity.
  - reflexivity.
Defined.




(** ** Map values and the emitted statement *)

(** X13: the value type of a map field is the type the resolver gives a
    field of the value's kind that is not repeated, resolved in the same
    state: a scalar value follows its own long type, not the [STRING] that
    is forced on the key, and an enum or message value is the reference
    the import resolver returns. *)
Theorem map_value_resolved_as_field :
  forall (W : Type) (this : MessageClassGenerator W) source descField
         fieldInfo K V w,
    FieldInfo.kind fieldInfo = FieldInfo.map K V ->
    V <> FieldInfo.V_unknown ->
    exists keyType valueType w',
      createTypeNode this source descField (valueField fieldInfo V) w
      = (inr valueType, w') /\
      createTypeNode this source descField fieldInfo w
      = (inr (let type :=
                Some (ts.createTypeLiteralNode
                        [ts.createIndexSignature
                           [ts.createParameter None "key" false keyType]
                           valueType]) in
              if FieldInfo.repeat fieldInfo
              then Some (ts.createArrayTypeNode type) else type), w').
Proof.
  intros W this source descField fieldInfo K V w HK HV.
  destruct (createMapValueTypeNode_returns this source V w)
    as (valueType & w' & Hvalue).
  eexists; exists valueType, w'. split.
  - unfold createTypeNode, valueField. cbn [FieldInfo.kind FieldInfo.repeat].
    destruct V as [T L | T | T |]; simpl in Hvalue |- *.
    + unfold ret in Hvalue. injection Hvalue as <- <-. reflexivity.
    + unfold bind in Hvalue |- *. destruct (createEnumTypeNode _ _ _ _)
        as [[e | t] w1]; [discriminate Hvalue |].
      unfold ret in Hvalue |- *. injection Hvalue as <- <-. reflexivity.
    + unfold bind in Hvalue |- *. destruct (createMessageTypeNode _ _ _ _)
        as [[e | t] w1]; [discriminate Hvalue |].
      unfold ret in Hvalue |- *. injection Hvalue as <- <-. reflexivity.
    + contradiction HV. reflexivity.
  - exact (createTypeNode_map this _ _ _ _ _ _ _ _ HK Hvalue).
Qed.

(** A map from int64 keys to int64 values of the native-number
    representation: the value is the number type, the key the string
    type. *)
Lemma map_value_resolved_as_field_int64 :
  exists keyType valueType w',
    createTypeNode Shape.this Shape.source (Shape.plainField 2 "area")
      (valueField
         (Shape.fieldInfo 2 "area"
            (FieldInfo.map ScalarType.INT64
               (FieldInfo.V_scalar ScalarType.INT64 (Some LongType.NUMBER)))
            None)
         (FieldInfo.V_scalar ScalarType.INT64 (Some LongType.NUMBER)))
      Shape.emptyWorld
    = (inr valueType, w') /\
    createTypeNode Shape.this Shape.source (Shape.plainField 2 "area")
      (Shape.fieldInfo 2 "area"
         (FieldInfo.map ScalarType.INT64
            (FieldInfo.V_scalar ScalarType.INT64 (Some LongType.NUMBER)))
         None)
      Shape.emptyWorld
    = (inr (Some (ts.createTypeLiteralNode
                    [ts.createIndexSignature
                       [ts.createParameter None "key" false keyType]
                       valueType])), w').
Proof.
  apply (map_value_resolved_as_field Shape.World Shape.this Shape.source
           (Shape.plainField 2 "area")
           (Shape.fieldInfo 2 "area"
              (FieldInfo.map ScalarType.INT64
                 (FieldInfo.V_scalar ScalarType.INT64 (Some LongType.NUMBER)))
              None)
           ScalarType.INT64
           (FieldInfo.V_scalar ScalarType.INT64 (Some LongType.NUMBER))
           Shape.emptyWorld eq_refl).
  discriminate.
Defined.

(** X14: when [generateMessageClass] returns, the declaration it returns
    is the statement it has added to the source file: an exported class,
    named by [imports.type] after all fields are processed, whose only
    member is the constructor; [source.addStatement] is called once, with
    this declaration, and the comment of the class is attached after. *)
Theorem returned_class_is_the_added_statement :
  forall (W : Type) (this : MessageClassGenerator W) source descMessage w
         statement w',
    generateMessageClass this source descMessage w = (inr statement, w') ->
    exists st w1,
      forOf (fields (getMessageType (interpreter this)
                       (inl (DescMessage_typeName descMessage))))
        (fieldStep this source descMessage)
        {| processedOneofs := []; ctorParams := [] |} w = (inr st, w1) /\
      statement
      = ts.createClassDeclaration [ts.SyntaxKind.ExportKeyword]
          (fst (type (imports this) source descMessage "message-class" w1))
          [ts.createConstructor (ctorParams st)] /\
      w' = snd (addCommentsForDescriptor (comments this) (ClassNode statement)
                  (OfMessage descMessage) "appendToLeadingBlock"
                  (snd (addStatement source statement
                          (snd (type (imports this) source descMessage
                                  "message-class" w1))))).
Proof.
  intros W this source descMessage w statement w' H.
  unfold generateMessageClass in H. apply bind_returns in H.
  destruct H as (st & w1 & Hloop & H). cbv zeta in H.
  exists st, w1. split; [exact Hloop |].
  unfold bind in H. rewrite !call_run in H. unfold ret in H.
  injection H as <- <-. split; reflexivity.
Qed.

(** The class generated for [Shape]. *)
Lemma returned_class_is_the_added_statement_Shape :
  exists st w1,
    forOf (fields Shape.messageType)
      (fieldStep Shape.this Shape.source Shape.descMessage)
      {| processedOneofs := []; ctorParams := [] |} Shape.emptyWorld
    = (inr st, w1) /\
    Shape.expectedClass
    = ts.createClassDeclaration [ts.SyntaxKind.ExportKeyword]
        (fst (type (imports Shape.this) Shape.source Shape.descMessage
                "message-class" w1))
        [ts.createConstructor (ctorParams st)] /\
    {| Shape.statements := [Shape.expectedClass];
       Shape.imported := ["Point"];
       Shape.commented := 4 |}
    = snd (addCommentsForDescriptor (comments Shape.this)
             (ClassNode Shape.expectedClass) (OfMessage Shape.descMessage)
             "appendToLeadingBlock"
             (snd (addStatement Shape.source Shape.expectedClass
                     (snd (type (imports Shape.this) Shape.source
                             Shape.descMessage "message-class" w1))))).
Proof.
  exact (returned_class_is_the_added_statement Shape.World Shape.this
           Shape.source Shape.descMessage Shape.emptyWorld
           Shape.expectedClass _ generateMessageClass_Shape).
Defined.

(** ** An unknown kind is never recovered *)

Lemma related_to_member {A B : Type} (R : A -> B -> Prop) (x : A) :
  forall (l : list A) (l' : list B),
    Forall2 R l l' -> In x l -> exists y, R x y.
Proof.
  intros l l' Hall. induction Hall as [| a b l l' Hab Hall IH]; simpl.
  - intros [].
  - intros [<- | Hin]; [exists b; exact Hab | exact (IH Hin)].
Qed.

(** Every field outside the groups is an emitting field. *)
Lemma emitting_regular (descMessage : DescMessage) fieldInfo fieldInfos :
  groupOf descMessage fieldInfo = None ->
  In fieldInfo fieldInfos ->
  forall processed, In fieldInfo (emitting descMessage processed fieldInfos).
Proof.
  intros Hnone. induction fieldInfos as [| fi rest IH]; intros Hin processed.
  - contradiction Hin.
  - simpl. destruct Hin as [-> | Hin].
    + rewrite Hnone. left. reflexivity.
    + destruct (groupOf descMessage fi) as [[g o] |].
      * destruct (includes processed g); [| right]; apply IH; exact Hin.
      * right. apply IH. exact Hin.
Qed.

(** An exception of the loop over the members leaves the union
    synthesis. *)
Lemma createOneofADTTypeNode_throws {W : Type}
    (this : MessageClassGenerator W) source descOneof parent interpreterType
    oneofLocalName pre fieldInfo post oneofCases w0 w e w2 :
  oneofInfo this descOneof w0
  = (inr (parent, interpreterType, oneofLocalName), w0) ->
  memberFieldInfos this descOneof oneofLocalName = pre ++ fieldInfo :: post ->
  forOf pre (oneofCaseStep this source (DescOneof_parent descOneof)) [] w0
  = (inr oneofCases, w) ->
  oneofCaseStep this source (DescOneof_parent descOneof) fieldInfo oneofCases w
  = (inl e, w2) ->
  createOneofADTTypeNode this source descOneof w0 = (inl e, w2).
Proof.
  intros HI Hmembers Hpre Hstep.
  destruct (oneofInfo_inversion this _ _ _ _ _ _ HI) as (-> & -> & _ & _).
  unfold createOneofADTTypeNode. rewrite (bind_inr _ _ _ _ _ HI).
  fold (memberFieldInfos this descOneof oneofLocalName).
  apply bind_inl. rewrite Hmembers.
  exact (forOf_throws _ _ _ _ _ _ _ _ _ _ Hpre Hstep).
Qed.

(** An exception of the union synthesis leaves the loop body, at a field
    of a group not yet processed. *)
Lemma fieldStep_group_throws {W : Type} (this : MessageClassGenerator W)
    source descMessage fieldInfo st descField groupName descOneof parent
    interpreterType oneofLocalName w e w2 :
  findByNumber (DescMessage_fields descMessage) (FieldInfo.no fieldInfo)
  = Some descField ->
  truthy (FieldInfo.oneof fieldInfo) = Some groupName ->
  DescField_oneof descField = Some descOneof ->
  includes (processedOneofs st) groupName = false ->
  oneofInfo this descOneof w
  = (inr (parent, interpreterType, oneofLocalName), w) ->
  createOneofADTTypeNode this source descOneof w = (inl e, w2) ->
  fieldStep this source descMessage fieldInfo st w = (inl e, w2).
Proof.
  intros Hfind Hg Ho Hincl HI HU. unfold fieldStep.
  rewrite Hfind, bind_assert_Some, Hg, Ho, Hincl.
  rewrite (bind_inr _ _ _ _ _ HI). apply bind_inl. exact HU.
Qed.

(** When the union synthesis returns, the resolver has returned for every
    member of the group. *)
Lemma returned_union_members_resolved {W : Type}
    (this : MessageClassGenerator W) source descOneof w unionType w'
    parent interpreterType oneofLocalName w1 w1' fieldInfo :
  createOneofADTTypeNode this source descOneof w = (inr unionType, w') ->
  oneofInfo this descOneof w1
  = (inr (parent, interpreterType, oneofLocalName), w1') ->
  In fieldInfo (memberFieldInfos this descOneof oneofLocalName) ->
  exists descField typeNode w2 w3,
    createTypeNode this source descField fieldInfo w2 = (inr typeNode, w3).
Proof.
  intros H HI Hin. unfold createOneofADTTypeNode in H.
  apply bind_returns in H.
  destruct H as ([[parent0 interpreterType0] name0] & w0 & HI0 & H).
  destruct (oneofInfo_inversion this _ _ _ _ _ _ HI0)
    as (-> & -> & -> & sampleField0 & rest0 & info0 & Hs0 & Hf0 & Ho0).
  destruct (oneofInfo_inversion this _ _ _ _ _ _ HI)
    as (_ & _ & _ & sampleField & rest & info & Hs & Hf & Ho).
  rewrite Hs0 in Hs. injection Hs as <- <-.
  rewrite Hf0 in Hf. injection Hf as <-.
  rewrite Ho0 in Ho. injection Ho as <-.
  apply bind_returns in H. destruct H as (result & w2 & Hloop & _).
  fold (memberFieldInfos this descOneof name0) in Hloop.
  apply oneofCases_loop_inversion in Hloop.
  destruct Hloop as (cases & _ & Hall).
  destruct (related_to_member _ _ _ _ Hall Hin)
    as (oneofCase & descField & typeNode & w3 & w4 & _ & HT & _).
  exists descField, typeNode, w3, w4. exact HT.
Qed.

(** C7: on a field whose kind is none of scalar, enum, message and map the
    resolver throws the error that names the schema field, and nothing
    catches it.  The class generation that reaches the field as a regular
    field ends with this error; so does the loop body of the union
    synthesis, the union synthesis that reaches the field as a member of a
    group, and the class generation that reaches that group.  And when a
    class is generated, the message has no such field outside the groups
    and none among the members of a group for which a parameter is
    emitted. *)
Theorem unknown_kind_is_fatal :
  forall (W : Type) (this : MessageClassGenerator W) source descField
         fieldInfo w,
    FieldInfo.kind fieldInfo = FieldInfo.unknown ->
    let e := Error (String.append "unknown kind "
                      (DescField_toString descField)) in
    createTypeNode this source descField fieldInfo w = (inl e, w) /\
    (forall descMessage pre post st w0,
        fields (getMessageType (interpreter this)
                  (inl (DescMessage_typeName descMessage)))
        = pre ++ fieldInfo :: post ->
        forOf pre (fieldStep this source descMessage)
          {| processedOneofs := []; ctorParams := [] |} w0 = (inr st, w) ->
        findByNumber (DescMessage_fields descMessage) (FieldInfo.no fieldInfo)
        = Some descField ->
        truthy (FieldInfo.oneof fieldInfo) = None \/
        DescField_oneof descField = None ->
        generateMessageClass this source descMessage w0 = (inl e, w)) /\
    (forall parentMessageDesc oneofCases,
        findByNumber (DescMessage_fields parentMessageDesc)
          (FieldInfo.no fieldInfo) = Some descField ->
        oneofCaseStep this source parentMessageDesc fieldInfo oneofCases w
        = (inl e, w)) /\
    (forall descOneof parent interpreterType oneofLocalName pre post
            oneofCases w0,
        oneofInfo this descOneof w0
        = (inr (parent, interpreterType, oneofLocalName), w0) ->
        memberFieldInfos this descOneof oneofLocalName
        = pre ++ fieldInfo :: post ->
        forOf pre (oneofCaseStep this source (DescOneof_parent descOneof)) []
          w0 = (inr oneofCases, w) ->
        findByNumber (DescMessage_fields (DescOneof_parent descOneof))
          (FieldInfo.no fieldInfo) = Some descField ->
        createOneofADTTypeNode this source descOneof w0 = (inl e, w) /\
        (forall descMessage before trigger after st w00 triggerField
                groupName,
            fields (getMessageType (interpreter this)
                      (inl (DescMessage_typeName descMessage)))
            = before ++ trigger :: after ->
            forOf before (fieldStep this source descMessage)
              {| processedOneofs := []; ctorParams := [] |} w00
            = (inr st, w0) ->
            findByNumber (DescMessage_fields descMessage)
              (FieldInfo.no trigger) = Some triggerField ->
            truthy (FieldInfo.oneof trigger) = Some groupName ->
            DescField_oneof triggerField = Some descOneof ->
            includes (processedOneofs st) groupName = false ->
            generateMessageClass this source descMessage w00 = (inl e, w))) /\
    (forall descMessage w0 statement w',
        generateMessageClass this source descMessage w0 = (inr statement, w') ->
        (In fieldInfo
            (fields (getMessageType (interpreter this)
                       (inl (DescMessage_typeName descMessage)))) ->
         groupOf descMessage fieldInfo = None -> False) /\
        (forall trigger groupName descOneof parent interpreterType
                oneofLocalName w1 w1',
            In trigger
               (emitting descMessage []
                  (fields (getMessageType (interpreter this)
                             (inl (DescMessage_typeName descMessage))))) ->
            groupOf descMessage trigger = Some (groupName, descOneof) ->
            oneofInfo this descOneof w1
            = (inr (parent, interpreterType, oneofLocalName), w1') ->
            In fieldInfo (memberFieldInfos this descOneof oneofLocalName) ->
            False)).
Proof.
  intros W this source descField fieldInfo w HK e.
  pose proof (createTypeNode_unknown this source descField fieldInfo w HK) as HT.
  assert (Hmember :
            forall parentMessageDesc oneofCases,
              findByNumber (DescMessage_fields parentMessageDesc)
                (FieldInfo.no fieldInfo) = Some descField ->
              oneofCaseStep this source parentMessageDesc fieldInfo oneofCases
                w = (inl e, w)).
  { intros parentMessageDesc oneofCases Hfind.
    unfold oneofCaseStep. rewrite Hfind, bind_assert_Some.
    apply bind_inl. exact HT. }
  split; [exact HT | split; [| split; [exact Hmember | split]]].
  - intros descMessage pre post st w0 Hfields Hpre Hfind Hreg.
    apply (generateMessageClass_throws this source descMessage pre fieldInfo
             post st w0 w e w Hfields Hpre).
    rewrite (fieldStep_regular this _ _ _ _ _ _ Hfind Hreg).
    apply bind_inl. exact HT.
  - intros descOneof parent interpreterType oneofLocalName pre post oneofCases
           w0 HI Hmembers Hpre Hfind.
    pose proof (createOneofADTTypeNode_throws this source descOneof parent
                  interpreterType oneofLocalName pre fieldInfo post oneofCases
                  w0 w e w HI Hmembers Hpre (Hmember _ _ Hfind)) as HU.
    split; [exact HU |].
    intros descMessage before trigger after st w00 triggerField groupName
           Hfields Hbefore Hfind' Hg Ho Hincl.
    apply (generateMessageClass_throws this source descMessage before trigger
             after st w00 w0 e w Hfields Hbefore).
    exact (fieldStep_group_throws this source descMessage trigger st
             triggerField groupName descOneof parent interpreterType
             oneofLocalName w0 e w Hfind' Hg Ho Hincl HI HU).
  - intros descMessage w0 statement w' H.
    apply generateMessageClass_inversion in H.
    destruct H as (st & w1 & Hloop & _).
    apply fieldLoop_emits in Hloop. destruct Hloop as (params & _ & Hall).
    simpl in Hall. split.
    + intros Hin Hnone.
      destruct (related_to_member _ _ _ _ Hall
                  (emitting_regular descMessage fieldInfo _ Hnone Hin []))
        as (param & Hparam).
      unfold emitted_for in Hparam. rewrite Hnone in Hparam.
      destruct Hparam as (descField0 & type & w2 & w3 & _ & HT0 & _).
      rewrite (createTypeNode_unknown this source descField0 fieldInfo w2 HK)
        in HT0.
      discriminate HT0.
    + intros trigger groupName descOneof parent interpreterType oneofLocalName
             w2 w2' Hin Hgroup HI Hmem.
      destruct (related_to_member _ _ _ _ Hall Hin) as (param & Hparam).
      unfold emitted_for in Hparam. rewrite Hgroup in Hparam.
      destruct Hparam
        as (parent0 & interpreterType0 & name0 & oneofType & w3 & w4 & w5
            & _ & HU & _).
      destruct (returned_union_members_resolved this source descOneof w4
                  oneofType w5 parent interpreterType oneofLocalName w2 w2'
                  fieldInfo HU HI Hmem)
        as (descField0 & typeNode & w6 & w7 & HT0).
      rewrite (createTypeNode_unknown this source descField0 fieldInfo w6 HK)
        in HT0.
      discriminate HT0.
Qed.

(** [Shape] with [area] of an undeclared kind: the resolver throws, and the
    class generation ends with the same error after [width] is processed.
    [Shape] with the member [anchor] of an undeclared kind: the union
    synthesis of [selector] throws after the case of [label] is built, and
    the class generation ends with the same error at [label], the first
    field of the group. *)
Lemma unknown_kind_is_fatal_Shape :
  (createTypeNode unknownGenerator Shape.source (Shape.plainField 2 "area")
     unknownInfo
     {| Shape.statements := []; Shape.imported := []; Shape.commented := 1 |}
   = (inl (Error "unknown kind field Shape.area"),
      {| Shape.statements := []; Shape.imported := []; Shape.commented := 1 |})
   /\
   generateMessageClass unknownGenerator Shape.source Shape.descMessage
     Shape.emptyWorld
   = (inl (Error "unknown kind field Shape.area"),
      {| Shape.statements := []; Shape.imported := []; Shape.commented := 1 |}))
  /\
  (createOneofADTTypeNode unknownMemberGenerator Shape.source Shape.selector
     {| Shape.statements := []; Shape.imported := []; Shape.commented := 2 |}
   = (inl (Error "unknown kind field Shape.anchor"),
      {| Shape.statements := []; Shape.imported := []; Shape.commented := 2 |})
   /\
   generateMessageClass unknownMemberGenerator Shape.source Shape.descMessage
     Shape.emptyWorld
   = (inl (Error "unknown kind field Shape.anchor"),
      {| Shape.statements := []; Shape.imported := []; Shape.commented := 2 |})).
Proof.
  split.
  - destruct (unknown_kind_is_fatal Shape.World unknownGenerator Shape.source
                (Shape.plainField 2 "area") unknownInfo
                {| Shape.statements := []; Shape.imported := [];
                   Shape.commented := 1 |} eq_refl) as (H1 & H2 & _).
    split.
    + exact H1.
    + apply (H2 Shape.descMessage
                [Shape.fieldInfo 1 "width"
                   (FieldInfo.scalar ScalarType.INT32 None) None]
                [] {| processedOneofs := [];
                      ctorParams :=
                        [ts.createParameter publicReadonly "width" false
                           (Some (ts.createKeywordTypeNode
                                    ts.SyntaxKind.NumberKeyword))] |}
                Shape.emptyWorld).
      * reflexivity.
      * reflexivity.
      * reflexivity.
      * left. reflexivity.
  - destruct (unknown_kind_is_fatal Shape.World unknownMemberGenerator
                Shape.source (Shape.plainField 4 "anchor") unknownMemberInfo
                {| Shape.statements := []; Shape.imported := [];
                   Shape.commented := 2 |} eq_refl) as (_ & _ & _ & H4 & _).
    destruct (H4 Shape.selector Shape.parentMessage
                (getMessageType (interpreter unknownMemberGenerator)
                   (inr Shape.parentMessage))
                "selector"
                [Shape.fieldInfo 3 "label"
                   (FieldInfo.scalar ScalarType.STRING None) (Some "selector")]
                []
                [ts.createTypeLiteralNode
                   [ts.createPropertySignature "kind" false
                      (Some (ts.createLiteralTypeNode "label"));
                    ts.createPropertySignature "label" false
                      (Some (ts.createKeywordTypeNode
                               ts.SyntaxKind.StringKeyword))]]
                {| Shape.statements := []; Shape.imported := [];
                   Shape.commented := 2 |}
                eq_refl eq_refl eq_refl eq_refl) as (HU & HG).
    split.
    + exact HU.
    + apply (HG Shape.descMessage
                [Shape.fieldInfo 1 "width"
                   (FieldInfo.scalar ScalarType.INT32 None) None;
                 Shape.fieldInfo 2 "area"
                   (FieldInfo.scalar ScalarType.UINT64 None) None]
                (Shape.fieldInfo 3 "label"
                   (FieldInfo.scalar ScalarType.STRING None) (Some "selector"))
                [unknownMemberInfo]
                {| processedOneofs := [];
                   ctorParams :=
                     [ts.createParameter publicReadonly "width" false
                        (Some (ts.createKeywordTypeNode
                                 ts.SyntaxKind.NumberKeyword));
                      ts.createParameter publicReadonly "area" false
                        (Some (ts.createKeywordTypeNode
                                 ts.SyntaxKind.StringKeyword))] |}
                Shape.emptyWorld (Shape.memberField 3 "label") "selector").
      * reflexivity.
      * reflexivity.
      * reflexivity.
      * reflexivity.
      * reflexivity.
      * reflexivity.
Defined.
